(** * mp4_builder: hourly timelapse builder

    A shallow embedding of [mp4_builder.py]: the mtime-window frame
    selector, the rebuild decision, the encoder invocation with its
    temporary work area, the per-camera-day loop and [main].

    Conventions of the model.
    - A [datetime] is a number of microseconds on the local time axis;
      day [d] (the directory [YYYYMMDD]) starts at [d * DAY]. File
      modification times live on the same axis, so [timestamp] is the
      identity (a fixed UTC offset, no daylight-saving jumps).
    - Directory listings are read-only inputs ([Env]); the artifact
      store, the live temporary directories, the oracle counters and
      standard error are the mutable [State].
    - Python exceptions are values of [Exn]; a computation is a state
      and exception monad [M].
    - The loops are modelled twice. On an [Env] the day directories are
      day numbers and every listed entry has answered its type check; on
      an [Archive] the directories have names, the day's name goes through
      strptime, and each entry's is_file() may raise. [env_for] is the
      first seen from the second. *)

From Stdlib Require Import ZArith String Ascii List Bool Lia Sorted Permutation.
From stdpp Require Import gmap strings list fin_maps.
Import ListNotations.

Local Open Scope string_scope.
Local Open Scope list_scope.
Local Open Scope Z_scope.

(** ** Time *)

Definition datetime := Z.

Definition USEC : Z := 1000000.
Definition MINUTE : Z := 60 * USEC.
Definition HOUR : Z := 60 * MINUTE.
Definition DAY : Z := 24 * HOUR.

(* h:m:sec of day [day], local time *)
Definition at_time (day h m sec : Z) : datetime :=
  day * DAY + h * HOUR + m * MINUTE + sec * USEC.

(* OVERLAP_MINUTES = 5 *)
Definition OVERLAP_MINUTES : Z := 5.

(* MIN_FRAMES_DEFAULT = 30 *)
Definition MIN_FRAMES_DEFAULT : Z := 30.

(* dt.date(), as a day number *)
Definition date_of (dt : datetime) : Z := dt / DAY.

(* dt.hour *)
Definition hour_of (dt : datetime) : Z := (dt mod DAY) / HOUR.

(* dt.replace(hour=h, minute=m, second=0, microsecond=0) *)
Definition replace_hm (dt : datetime) (h m : Z) : datetime :=
  date_of dt * DAY + h * HOUR + m * MINUTE.

(* timedelta(days=d, hours=h, minutes=m) *)
Definition timedelta (d h m : Z) : Z := d * DAY + h * HOUR + m * MINUTE.

(* dt.timestamp() *)
Definition timestamp (dt : datetime) : Z := dt.

(* yyyymmdd_to_date: the day directory [day] parsed to its local midnight *)
Definition yyyymmdd_to_date (day : Z) : datetime := day * DAY.

(* hour_window *)
Definition hour_window (day_dt : datetime) (hour : Z) : datetime * datetime :=
  let start := replace_hm day_dt hour 0 in
  let end_ := start + timedelta 0 1 OVERLAP_MINUTES in
  (start, end_).

(** ** Exceptions *)

Inductive Exn : Type :=
  | RuntimeError (returncode : Z) (stderr_text : string)
  | FileNotFoundError
  | PermissionError
  | OSError (errno : Z)
  | ValueError
  | OverflowError
  | KeyboardInterrupt
  | SystemExit (msg : string).

(* isinstance(e, Exception): KeyboardInterrupt and SystemExit derive from
   BaseException only *)
Definition is_Exception (e : Exn) : bool :=
  match e with
  | KeyboardInterrupt | SystemExit _ => false
  | _ => true
  end.

Definition is_FileNotFoundError (e : Exn) : bool :=
  match e with
  | FileNotFoundError => true
  | _ => false
  end.

Inductive Result (A : Type) : Type :=
  | Ok (a : A)
  | Raise (e : Exn).
Arguments Ok {A} a.
Arguments Raise {A} e.

(** ** Directories and frames *)

(* archive_root / day / camera *)
Definition Dir : Type := Z * string.

(* a file inside a camera-day directory *)
Definition Path : Type := Dir * string.

(* os.DirEntry: name, is_file(), and stat().st_mtime (None: stat raised OSError) *)
Record DirEntry : Type := {
  e_name : string;
  e_is_file : bool;
  e_stat : option Z
}.

Definition Frame : Type := Path * Z.

(* JPEG_EXTS = (".jpg", ".jpeg", ".JPG", ".JPEG") *)
Definition JPEG_EXTS : list string := [".jpg"; ".jpeg"; ".JPG"; ".JPEG"].

(* str.endswith with one suffix *)
Definition endswith (name suffix : string) : bool :=
  (String.length suffix <=? String.length name)%nat &&
  String.eqb
    (substring (String.length name - String.length suffix) (String.length suffix) name)
    suffix.

(* str.endswith with a tuple of suffixes *)
Definition endswith_any (name : string) (suffixes : list string) : bool :=
  existsb (endswith name) suffixes.
Arguments endswith_any : simpl never.

(* out.sort(key=lambda x: x[1]): a stable sort on the mtime *)
Fixpoint insert_by_mtime (f : Frame) (l : list Frame) : list Frame :=
  match l with
  | [] => [f]
  | g :: l' => if snd f <=? snd g then f :: g :: l' else g :: insert_by_mtime f l'
  end.

Fixpoint sort_by_mtime (l : list Frame) : list Frame :=
  match l with
  | [] => []
  | f :: l' => insert_by_mtime f (sort_by_mtime l')
  end.

(* the body of the [for entry in it] loop of list_jpgs_in_range *)
Fixpoint scan_entries (dir_path : Dir) (start_ts end_ts : Z)
    (entries : list DirEntry) (out : list Frame) : list Frame :=
  match entries with
  | [] => out
  | entry :: rest =>
      if negb (e_is_file entry) then scan_entries dir_path start_ts end_ts rest out
      else
        let name := e_name entry in
        if negb (endswith_any name JPEG_EXTS) then
          scan_entries dir_path start_ts end_ts rest out
        else
          match e_stat entry with
          | None => scan_entries dir_path start_ts end_ts rest out
          | Some mt =>
              if (mt <? start_ts) || (mt >=? end_ts) then
                scan_entries dir_path start_ts end_ts rest out
              else
                scan_entries dir_path start_ts end_ts rest (out ++ [((dir_path, name), mt)])
          end
  end.

(** ** The environment: what the builder reads but never writes *)

(* ffmpeg parameters of Config *)
Record Encoding : Type := {
  output_fps_milli : Z;
  scale_max_width : Z;
  crf : Z;
  preset : string
}.

Record File : Type := {
  st_mtime : Z;
  content : list Byte.byte
}.

(* The outcome of subprocess.run on the ffmpeg command: the process exits
   with [returncode], possibly leaving an output file and error text, or the
   builder is interrupted while it waits. *)
Inductive EncResult : Type :=
  | EncExit (returncode : Z) (out : option File) (stderr_text : string)
  | EncInterrupted.

Record Env : Type := {
  (* Path.exists() on a camera-day directory *)
  dir_exists : Dir -> bool;
  (* os.scandir on a camera-day directory *)
  scandir : Dir -> Result (list DirEntry);
  (* str(p.resolve()) *)
  resolve : Path -> string;
  (* the n-th ffmpeg run on a manifest *)
  encoder : nat -> list string -> Encoding -> bool -> EncResult;
  (* the n-th reading of datetime.now() *)
  clock : nat -> datetime;
  (* archive_root.exists() *)
  archive_root_exists : bool;
  (* list_day_dirs(archive_root), already sorted *)
  day_dirs : list Z;
  (* shutil.which("ffmpeg") *)
  ffmpeg_in_path : option string
}.

(* list_jpgs_in_range *)
Definition list_jpgs_in_range (env : Env) (dir_path : Dir) (start_dt end_dt : datetime)
    : Result (list Frame) :=
  if negb (dir_exists env dir_path) then Ok []
  else
    let start_ts := timestamp start_dt in
    let end_ts := timestamp end_dt in
    match scandir env dir_path with
    | Ok entries => Ok (sort_by_mtime (scan_entries dir_path start_ts end_ts entries []))
    | Raise e => if is_FileNotFoundError e then Ok [] else Raise e
    end.

(** ** The mutable state *)

(* the work area of tempfile.TemporaryDirectory: frames.txt and out.mp4 *)
Record TempDir : Type := {
  frames_txt : option (list string);
  tmp_mp4 : option File
}.

Inductive LogLine : Type :=
  | LogFfmpegCmd (enc : Encoding)
  | LogSkipUpToDate (out_name : string) (out_mt src_newest : Z)
  | LogSkipFewFrames (out_name : string) (n : nat) (min_frames : Z)
  | LogOk (out_mp4 : Path) (n : nat)
  | LogMissingCameraDir (day_dir : Dir)
  | LogSkipNoFrames (out_name : string) (start_dt end_dt : datetime)
  | LogBuildCurrentHour (out_name : string) (end_dt : datetime)
  | LogErrorBuilding (out_name : string) (e : Exn)
  | LogCamera (cam : string) (day : Z)
  | LogCameraNamed (cam day : string)
  | LogMissingCameraDirNamed (day cam : string)
  | LogDone (total_built : nat)
  | LogNoCameraSelected
  | LogArchiveRootNotFound
  | LogNoDayDirs.

Record State : Type := {
  (* the MP4 files present under the archive root *)
  artifacts : gmap Path File;
  (* the live temporary directories, innermost first *)
  tempdirs : list TempDir;
  (* how many times ffmpeg has been run *)
  enc_calls : nat;
  (* how many times the clock has been read *)
  clock_reads : nat;
  (* what was printed to standard error, oldest first *)
  stderr : list LogLine
}.

Definition set_artifacts (f : gmap Path File -> gmap Path File) (s : State) : State :=
  {| artifacts := f (artifacts s); tempdirs := tempdirs s; enc_calls := enc_calls s;
     clock_reads := clock_reads s; stderr := stderr s |}.

Definition set_tempdirs (f : list TempDir -> list TempDir) (s : State) : State :=
  {| artifacts := artifacts s; tempdirs := f (tempdirs s); enc_calls := enc_calls s;
     clock_reads := clock_reads s; stderr := stderr s |}.

Definition set_enc_calls (f : nat -> nat) (s : State) : State :=
  {| artifacts := artifacts s; tempdirs := tempdirs s; enc_calls := f (enc_calls s);
     clock_reads := clock_reads s; stderr := stderr s |}.

Definition set_clock_reads (f : nat -> nat) (s : State) : State :=
  {| artifacts := artifacts s; tempdirs := tempdirs s; enc_calls := enc_calls s;
     clock_reads := f (clock_reads s); stderr := stderr s |}.

Definition set_stderr (f : list LogLine -> list LogLine) (s : State) : State :=
  {| artifacts := artifacts s; tempdirs := tempdirs s; enc_calls := enc_calls s;
     clock_reads := clock_reads s; stderr := f (stderr s) |}.

(** ** The state and exception monad *)

Definition M (A : Type) : Type := State -> Result A * State.

Definition ret {A : Type} (a : A) : M A := fun s => (Ok a, s).

Definition raise {A : Type} (e : Exn) : M A := fun s => (Raise e, s).

Definition bind {A B : Type} (m : M A) (k : A -> M B) : M B :=
  fun s =>
    match m s with
    | (Ok a, s') => k a s'
    | (Raise e, s') => (Raise e, s')
    end.

Notation "'let*' x ':=' m 'in' k" := (bind m (fun x => k))
  (at level 10, x name, m at level 100, k at level 200).
Notation "m ';;' k" := (bind m (fun _ => k))
  (at level 100, k at level 200, right associativity).

(* a pure computation that may raise *)
Definition lift {A : Type} (r : Result A) : M A := fun s => (r, s).

(* try: body / except Exception as e: handler e *)
Definition try_except_Exception {A : Type} (body : M A) (handler : Exn -> M A) : M A :=
  fun s =>
    match body s with
    | (Ok a, s') => (Ok a, s')
    | (Raise e, s') => if is_Exception e then handler e s' else (Raise e, s')
    end.

(* with tempfile.TemporaryDirectory(...) as td: body
   The directory is created empty on entry and removed, with what it holds,
   when the block is left, normally or by an exception. *)
Definition with_TemporaryDirectory {A : Type} (body : M A) : M A :=
  fun s =>
    let s1 := set_tempdirs (cons {| frames_txt := None; tmp_mp4 := None |}) s in
    let '(r, s2) := body s1 in
    (r, set_tempdirs (drop 1) s2).

(* eprint *)
Definition eprint (l : LogLine) : M unit :=
  fun s => (Ok tt, set_stderr (fun e => e ++ [l]) s).

(* if verbose: eprint(...) *)
Definition eprint_if (verbose : bool) (l : LogLine) : M unit :=
  if verbose then eprint l else ret tt.

(* datetime.now() *)
Definition datetime_now (env : Env) : M datetime :=
  fun s => (Ok (clock env (clock_reads s)), set_clock_reads S s).

(** ** Configuration *)

Record Config : Type := {
  cfg_day : option Z;
  cameras : list string;
  encoding : Encoding;
  min_frames : Z;
  verbose : bool
}.

(** ** Building one hour *)

(* s.replace("'", r"'\''") *)
Fixpoint escape_quotes (s : string) : string :=
  match s with
  | EmptyString => EmptyString
  | String c s' =>
      if Ascii.eqb c "'"%char then "'\''" +:+ escape_quotes s'
      else String c (escape_quotes s')
  end.

(* write_concat_list: one line per frame, in the order of [frames] *)
Definition concat_lines (env : Env) (frames : list Frame) : list string :=
  map (fun '(p, _mt) => "file '" +:+ escape_quotes (resolve env p) +:+ "'") frames.

Definition write_concat_list (env : Env) (frames : list Frame) : M unit :=
  fun s =>
    (Ok tt,
     set_tempdirs (fun tds =>
       match tds with
       | td :: rest => {| frames_txt := Some (concat_lines env frames); tmp_mp4 := tmp_mp4 td |} :: rest
       | [] => []
       end) s).

(* the manifest ffmpeg reads through -i list_file *)
Definition read_manifest (s : State) : list string :=
  match tempdirs s with
  | td :: _ => default [] (frames_txt td)
  | [] => []
  end.

(* ffmpeg -y ... out_mp4: whatever the process wrote is left in the work area *)
Definition store_tmp_mp4 (out : option File) (s : State) : State :=
  set_tempdirs (fun tds =>
    match tds, out with
    | td :: rest, Some f => {| frames_txt := frames_txt td; tmp_mp4 := Some f |} :: rest
    | _, _ => tds
    end) s.

(* run_ffmpeg_concat *)
Definition run_ffmpeg_concat (env : Env) (enc : Encoding) (verbose_ : bool) : M unit :=
  eprint_if verbose_ (LogFfmpegCmd enc) ;;
  fun s =>
    let proc := encoder env (enc_calls s) (read_manifest s) enc verbose_ in
    let s1 := set_enc_calls S s in
    match proc with
    | EncInterrupted => (Raise KeyboardInterrupt, s1)
    | EncExit returncode out err =>
        let s2 := store_tmp_mp4 out s1 in
        if negb (returncode =? 0) then (Raise (RuntimeError returncode err), s2)
        else (Ok tt, s2)
    end.

(* shutil.copy2(tmp_mp4, out_mp4): data and modification time are copied *)
Definition copy2_tmp_mp4 (out_mp4 : Path) : M unit :=
  fun s =>
    match tempdirs s with
    | {| tmp_mp4 := Some f |} :: _ => (Ok tt, set_artifacts (insert out_mp4 f) s)
    | _ => (Raise FileNotFoundError, s)
    end.

(* newest_mtime *)
Definition newest_mtime (frames : list Frame) : option Z :=
  match frames with
  | [] => None
  | _ => snd <$> last frames
  end.

(* should_skip_past_hour *)
Definition should_skip_past_hour (out_mp4 : Path) (frames : list Frame) (verbose_ : bool)
    : M bool :=
  fun s =>
    match artifacts s !! out_mp4 with
    | None => (Ok false, s)
    | Some out_file =>
        match newest_mtime frames with
        | None => (Ok true, s)
        | Some src_newest =>
            let out_mt := st_mtime out_file in
            if out_mt >=? src_newest then
              (eprint_if verbose_ (LogSkipUpToDate (snd out_mp4) out_mt src_newest) ;;
               ret true) s
            else (Ok false, s)
        end
    end.

(* build_hour_mp4 *)
Definition build_hour_mp4 (env : Env) (out_mp4 : Path) (frames : list Frame) (cfg : Config)
    : M unit :=
  if Z.of_nat (length frames) <? min_frames cfg then
    eprint (LogSkipFewFrames (snd out_mp4) (length frames) (min_frames cfg))
  else
    (* out_mp4.parent is the camera-day directory, which exists:
       mkdir(parents=True, exist_ok=True) changes nothing *)
    with_TemporaryDirectory
      (write_concat_list env frames ;;
       run_ffmpeg_concat env (encoding cfg) (verbose cfg) ;;
       copy2_tmp_mp4 out_mp4) ;;
    eprint (LogOk out_mp4 (length frames)).

(** ** Building one camera-day *)

(* f"{hour:02}" for an hour of the day *)
Definition fmt02 (hour : Z) : string :=
  String (ascii_of_nat (48 + Z.to_nat (hour / 10)))
    (String (ascii_of_nat (48 + Z.to_nat (hour mod 10))) EmptyString).

(* f"{camera}-{hour:02}00.mp4" *)
Definition out_name_of (camera : string) (hour : Z) : string :=
  camera +:+ "-" +:+ fmt02 hour +:+ "00.mp4".

Definition bind_result {A B : Type} (r : Result A) (k : A -> Result B) : Result B :=
  match r with
  | Ok a => k a
  | Raise e => Raise e
  end.

(* the frame selection of one iteration: the [if hour == 0: ... else: ...] block *)
Definition hour_frames (env : Env) (day_dir prev_day_dir : Dir) (day_dt prev_day_dt : datetime)
    (hour : Z) (start_dt end_dt : datetime) : Result (list Frame) :=
  if hour =? 0 then
    let prev_start := replace_hm prev_day_dt 23 (60 - OVERLAP_MINUTES) in
    let prev_end := replace_hm day_dt 0 0 in
    bind_result
      (if dir_exists env prev_day_dir
       then list_jpgs_in_range env prev_day_dir prev_start prev_end
       else Ok [])
      (fun from_prev =>
         bind_result (list_jpgs_in_range env day_dir start_dt end_dt)
           (fun from_day => Ok (from_prev ++ from_day)))
  else list_jpgs_in_range env day_dir start_dt end_dt.

(* what one camera-day run fixes before its loop *)
Record DayCtx : Type := {
  camera : string;
  day_dir : Dir;
  prev_day_dir : Dir;
  day_dt : datetime;
  prev_day_dt : datetime;
  now : datetime;
  is_today : bool;
  current_hour : Z
}.

Definition is_current_hour (ctx : DayCtx) (hour : Z) : bool :=
  is_today ctx && (hour =? current_hour ctx).

(* the end of the window of [hour]: now for the hour in progress *)
Definition window_end (ctx : DayCtx) (hour : Z) : datetime :=
  if is_current_hour ctx hour then now ctx else snd (hour_window (day_dt ctx) hour).

Definition select_frames (env : Env) (ctx : DayCtx) (hour : Z) : Result (list Frame) :=
  hour_frames env (day_dir ctx) (prev_day_dir ctx) (day_dt ctx) (prev_day_dt ctx) hour
    (fst (hour_window (day_dt ctx) hour)) (window_end ctx hour).

(* one iteration of [for hour in range(0, current_hour + 1)]; the result is
   the new value of [built]; [continue] returns it unchanged *)
Definition hour_body (env : Env) (cfg : Config) (ctx : DayCtx) (hour : Z) (built : nat)
    : M nat :=
  let out_name := out_name_of (camera ctx) hour in
  let out_mp4 : Path := (day_dir ctx, out_name) in
  let start_dt := fst (hour_window (day_dt ctx) hour) in
  let end_dt := window_end ctx hour in
  let* frames := lift (select_frames env ctx hour) in
  match frames with
  | [] =>
      eprint_if (verbose cfg) (LogSkipNoFrames out_name start_dt end_dt) ;;
      ret built
  | _ =>
      let* skip :=
        (if negb (is_current_hour ctx hour) then
           should_skip_past_hour out_mp4 frames (verbose cfg)
         else
           eprint_if (verbose cfg) (LogBuildCurrentHour out_name end_dt) ;;
           ret false) in
      if skip then ret built
      else
        try_except_Exception
          (build_hour_mp4 env out_mp4 frames cfg ;;
           ret (S built))
          (fun e =>
             eprint (LogErrorBuilding out_name e) ;;
             ret built)
  end.

Fixpoint for_hours (body : Z -> nat -> M nat) (hours : list Z) (built : nat) : M nat :=
  match hours with
  | [] => ret built
  | hour :: rest =>
      let* built' := body hour built in
      for_hours body rest built'
  end.

(* range(0, n) *)
Definition range0 (n : Z) : list Z := seqZ 0 n.

Definition day_ctx (day : Z) (camera_ : string) (now_ : datetime) : DayCtx :=
  let day_dt_ := yyyymmdd_to_date day in
  let is_today_ := date_of day_dt_ =? date_of now_ in
  let prev_day_dt_ := day_dt_ - timedelta 1 0 0 in
  {| camera := camera_;
     day_dir := (day, camera_);
     prev_day_dir := (date_of prev_day_dt_, camera_);
     day_dt := day_dt_;
     prev_day_dt := prev_day_dt_;
     now := now_;
     is_today := is_today_;
     current_hour := if is_today_ then hour_of now_ else 23 |}.

(* build_for_camera_day *)
Definition build_for_camera_day (env : Env) (cfg : Config) (day : Z) (camera_ : string)
    : M nat :=
  if negb (dir_exists env (day, camera_)) then
    eprint (LogMissingCameraDir (day, camera_)) ;;
    ret 0%nat
  else
    let* now_ := datetime_now env in
    let ctx := day_ctx day camera_ now_ in
    for_hours (hour_body env cfg ctx) (range0 (current_hour ctx + 1)) 0%nat.

(** ** main *)

(* CAMERA_MAP, in insertion order *)
Definition CAMERA_MAP : list (string * string) :=
  [("camera1", "backwindows"); ("camera2", "basementWoodRm"); ("camera3", "driveway");
   ("camera4", "frontDoorInside"); ("camera5", "garagedoors"); ("camera6", "livingRoom")].

(* the parsed command line *)
Record Namespace : Type := {
  ns_all : bool;
  (* --camera1 .. --camera6 *)
  ns_camera : list bool;
  ns_day : option Z;
  ns_encoding : Encoding;
  ns_min_frames : Z;
  ns_verbose : bool
}.

(* selected_cameras *)
Definition selected_cameras (ns : Namespace) : list string :=
  if ns_all ns then map snd CAMERA_MAP
  else
    flat_map (fun '(flag, (_, cam)) => if (flag : bool) then [cam] else [])
      (combine (ns_camera ns) CAMERA_MAP).

(* pick_latest_day *)
Definition pick_latest_day (env : Env) : option Z := last (day_dirs env).

(* require_ffmpeg *)
Definition require_ffmpeg (env : Env) : M string :=
  match ffmpeg_in_path env with
  | Some ffmpeg => ret ffmpeg
  | None => raise (SystemExit "ERROR: ffmpeg not found in PATH.")
  end.

(* the [for cam in cfg.cameras] loop of main *)
Fixpoint for_cameras (env : Env) (cfg : Config) (day : Z) (cams : list string)
    (total_built : nat) : M nat :=
  match cams with
  | [] => ret total_built
  | cam :: rest =>
      eprint (LogCamera cam day) ;;
      let* built := build_for_camera_day env cfg day cam in
      for_cameras env cfg day rest (total_built + built)%nat
  end.

(* main: the result is the exit status *)
Definition main (env : Env) (ns : Namespace) : M Z :=
  let cams := selected_cameras ns in
  match cams with
  | [] => eprint LogNoCameraSelected ;; ret 2
  | _ =>
      let cfg := {| cfg_day := ns_day ns; cameras := cams; encoding := ns_encoding ns;
                    min_frames := ns_min_frames ns; verbose := ns_verbose ns |} in
      if negb (archive_root_exists env) then eprint LogArchiveRootNotFound ;; ret 2
      else
        match (match cfg_day cfg with Some d => Some d | None => pick_latest_day env end) with
        | None => eprint LogNoDayDirs ;; ret 1
        | Some day =>
            let* _ffmpeg := require_ffmpeg env in
            let* total_built := for_cameras env cfg day (cameras cfg) 0%nat in
            eprint (LogDone total_built) ;;
            ret 0
        end
  end.

(** ** Specification-side notions *)

Definition mtime_le (f g : Frame) : Prop := snd f <= snd g.

Definition mtime_sorted (l : list Frame) : Prop := StronglySorted mtime_le l.

(** The selection as the specification words it: a regular file with a
    recognized JPEG suffix whose modification time is known and lies in
    [start_ts, end_ts) contributes the pair of its path and that time. *)
Definition frame_of_entry (dir_path : Dir) (start_ts end_ts : Z) (entry : DirEntry)
    : option Frame :=
  if e_is_file entry && endswith_any (e_name entry) JPEG_EXTS then
    match e_stat entry with
    | Some mt =>
        if (start_ts <=? mt) && (mt <? end_ts) then Some ((dir_path, e_name entry), mt)
        else None
    | None => None
    end
  else None.

Definition frames_in_window (dir_path : Dir) (start_ts end_ts : Z) (entries : list DirEntry)
    : list Frame :=
  omap (frame_of_entry dir_path start_ts end_ts) entries.

(** Standard error only grows. *)
Definition logged_more (s s' : State) : Prop :=
  exists lines, stderr s' = stderr s ++ lines.

(** [s'] differs from [s] at most by lines added to standard error: no
    artifact written, no encoder run, no work area left, no clock read. *)
Definition only_logged (s s' : State) : Prop :=
  artifacts s' = artifacts s /\ tempdirs s' = tempdirs s /\
  enc_calls s' = enc_calls s /\ clock_reads s' = clock_reads s /\
  logged_more s s'.

(** The artifact of [out_mp4] is at least as new as every frame of [frames]. *)
Definition up_to_date (s : State) (out_mp4 : Path) (frames : list Frame) : Prop :=
  exists out_file,
    artifacts s !! out_mp4 = Some out_file /\
    forall f, In f frames -> snd f <= st_mtime out_file.



(* day = cfg.day or pick_latest_day(cfg.archive_root) *)
Definition resolved_day (env : Env) (ns : Namespace) : option Z :=
  match ns_day ns with
  | Some d => Some d
  | None => pick_latest_day env
  end.

(* str.lower on one character *)
Definition lower_ascii (c : ascii) : ascii :=
  let n := nat_of_ascii c in
  if (65 <=? n)%nat && (n <=? 90)%nat then ascii_of_nat (n + 32) else c.

Fixpoint lowercase (s : string) : string :=
  match s with
  | EmptyString => EmptyString
  | String c s' => String (lower_ascii c) (lowercase s')
  end.

(** Extension matching as the specification words it: [.jpg] or [.jpeg]
    under any combination of letter case. *)
Definition is_jpeg_name_ci (name : string) : bool :=
  endswith (lowercase name) ".jpg" || endswith (lowercase name) ".jpeg".

(** ** Sample data *)

Definition jpg (name : string) (mt : Z) : DirEntry :=
  {| e_name := name; e_is_file := true; e_stat := Some mt |}.

Definition sample_encoding : Encoding :=
  {| output_fps_milli := 15000; scale_max_width := 1920; crf := 23; preset := "veryfast" |}.

Definition sample_cfg (min_frames_ : Z) : Config :=
  {| cfg_day := None; cameras := ["driveway"]; encoding := sample_encoding;
     min_frames := min_frames_; verbose := false |}.

Definition sample_ns (min_frames_ : Z) : Namespace :=
  {| ns_all := false; ns_camera := [false; false; true]; ns_day := None;
     ns_encoding := sample_encoding; ns_min_frames := min_frames_; ns_verbose := false |}.

Fixpoint lookup_dir (d : Dir) (dirs : list (Dir * Result (list DirEntry)))
    : Result (list DirEntry) :=
  match dirs with
  | [] => Raise FileNotFoundError
  | (d', r) :: rest => if bool_decide (d' = d) then r else lookup_dir d rest
  end.

(* an archive given by the listing of each of its camera-day directories,
   oldest day first *)
Definition sample_env (dirs : list (Dir * Result (list DirEntry)))
    (enc : nat -> EncResult) (now_ : datetime) : Env :=
  {| dir_exists := fun d => bool_decide (d ∈ map fst dirs);
     scandir := fun d => lookup_dir d dirs;
     resolve := fun p => "/archive/" +:+ snd (fst p) +:+ "/" +:+ snd p;
     encoder := fun n _ _ _ => enc n;
     clock := fun _ => now_;
     archive_root_exists := true;
     day_dirs := map (fun x => fst (fst x)) dirs;
     ffmpeg_in_path := Some "/usr/bin/ffmpeg" |}.

Definition empty_state : State :=
  {| artifacts := ∅; tempdirs := []; enc_calls := 0; clock_reads := 0; stderr := [] |}.

Definition video (mt : Z) : File := {| st_mtime := mt; content := [] |}.

Definition driveway (day : Z) : Dir := (day, "driveway").

(* a camera-day directory holding a subdirectory, a text file, a frame whose
   stat fails, and frames before, inside and after the fourth hour *)
Definition mixed_entries : list DirEntry :=
  [ {| e_name := "thumbs.jpg"; e_is_file := false; e_stat := Some (at_time 100 3 1 0) |};
    {| e_name := "notes.txt"; e_is_file := true; e_stat := Some (at_time 100 3 2 0) |};
    {| e_name := "gone.jpg"; e_is_file := true; e_stat := None |};
    jpg "late.jpg" (at_time 100 3 59 59);
    jpg "early.jpeg" (at_time 100 3 0 0);
    jpg "before.JPG" (at_time 100 2 59 59);
    jpg "after.JPEG" (at_time 100 4 5 0);
    jpg "overlap.JPG" (at_time 100 4 4 59) ].

Definition mixed_env : Env :=
  sample_env [(driveway 100, Ok mixed_entries)] (fun _ => EncExit 1 None "") (at_time 200 0 0 0).

(* the same directory once the unreadable frame is gone *)
Definition mixed_env_readable : Env :=
  sample_env
    [(driveway 100,
      Ok (firstn 2 mixed_entries ++ skipn 3 mixed_entries))]
    (fun _ => EncExit 1 None "") (at_time 200 0 0 0).

(* day 100 of the sample directory after a run at 06:00 that encoded its
   hours 2, 3 and 4 *)
Definition built_state : State :=
  {| artifacts :=
       <[(driveway 100, "driveway-0200.mp4") := video (at_time 100 6 0 0)]>
         (<[(driveway 100, "driveway-0300.mp4") := video (at_time 100 6 0 0)]>
            (<[(driveway 100, "driveway-0400.mp4") := video (at_time 100 6 0 0)]> ∅));
     tempdirs := []; enc_calls := 3; clock_reads := 1; stderr := [] |}.

(* day 100 seen from 03:30 of that day, one frame captured so far in the
   hour in progress; the encoder would succeed if it were run *)
Definition current_hour_env : Env :=
  sample_env [(driveway 100, Ok [jpg "only.jpg" (at_time 100 3 10 0)])]
    (fun _ => EncExit 0 (Some (video (at_time 100 3 30 1))) "") (at_time 100 3 30 0).

(* the same directory seen from day 200 *)
Definition one_frame_env : Env :=
  sample_env [(driveway 100, Ok [jpg "only.jpg" (at_time 100 3 10 0)])]
    (fun _ => EncExit 0 (Some (video (at_time 200 0 0 1))) "") (at_time 200 0 0 0).


(* an encoder that is killed on its first run and succeeds afterwards *)
Definition flaky_env : Env :=
  sample_env [(driveway 100, Ok mixed_entries)]
    (fun n => match n with
              | O => EncExit (-9) (Some (video (at_time 200 0 0 1))) "killed"
              | _ => EncExit 0 (Some (video (at_time 200 0 0 2))) ""
              end)
    (at_time 200 0 0 0).

(* an artifact of hour 3 older than the frames of the hour *)
Definition stale_state : State :=
  {| artifacts := {[ (driveway 100, "driveway-0300.mp4") := video (at_time 100 3 5 0) ]};
     tempdirs := []; enc_calls := 0; clock_reads := 0; stderr := [] |}.

(* the last minutes of day 99 and the first of day 100 *)
Definition midnight_env : Env :=
  sample_env
    [(driveway 99,
      Ok [jpg "p2.jpg" (at_time 99 23 56 0); jpg "p1.jpg" (at_time 99 23 50 0)]);
     (driveway 100,
      Ok [jpg "c2.jpg" (at_time 100 1 4 59); jpg "c1.jpg" (at_time 100 0 0 1)])]
    (fun _ => EncExit 1 None "") (at_time 200 0 0 0).

(* regular files whose extensions mix upper and lower case *)
Definition mixed_case_env : Env :=
  sample_env
    [(driveway 100,
      Ok [jpg "snap.Jpg" (at_time 100 3 10 0); jpg "shot.JPeg" (at_time 100 3 20 0)])]
    (fun _ => EncExit 1 None "") (at_time 200 0 0 0).

(** ** Day directories by name *)

Definition is_ascii_digit (c : ascii) : bool :=
  let n := nat_of_ascii c in (48 <=? n)%nat && (n <=? 57)%nat.

Fixpoint all_digits (s : string) : bool :=
  match s with
  | EmptyString => true
  | String c s' => is_ascii_digit c && all_digits s'
  end.

(* str.isdigit on an ASCII name: not empty and digits only *)
Definition isdigit (name : string) : bool :=
  match name with
  | EmptyString => false
  | _ => all_digits name
  end.

(* days.sort() on strings *)
Fixpoint insert_name (name : string) (l : list string) : list string :=
  match l with
  | [] => [name]
  | other :: l' =>
      if String.leb name other then name :: other :: l' else other :: insert_name name l'
  end.

Fixpoint sort_names (l : list string) : list string :=
  match l with
  | [] => []
  | name :: l' => insert_name name (sort_names l')
  end.

(* the [for p in archive_root.iterdir()] loop of list_day_dirs; an entry is
   its name and whether it is a directory *)
Fixpoint scan_day_dirs (entries : list (string * bool)) (days : list string) : list string :=
  match entries with
  | [] => days
  | (name, is_dir) :: rest =>
      if is_dir then
        if (String.length name =? 8)%nat && isdigit name then scan_day_dirs rest (days ++ [name])
        else scan_day_dirs rest days
      else scan_day_dirs rest days
  end.

(* list_day_dirs; [None] is an archive root that does not exist *)
Definition list_day_dirs (root : option (list (string * bool))) : list string :=
  match root with
  | None => []
  | Some entries => sort_names (scan_day_dirs entries [])
  end.

(* pick_latest_day on the names: days[-1] if days else None *)
Definition pick_latest_day_name (root : option (list (string * bool))) : option string :=
  last (list_day_dirs root).

(** The order of days.sort() on names. *)
Definition name_le (a b : string) : Prop := String.leb a b = true.

(** ** What the completion summary counts *)

(** The lines printed by build_hour_mp4 when it returns without raising. *)
Definition is_counted (l : LogLine) : bool :=
  match l with
  | LogOk _ _ | LogSkipFewFrames _ _ _ => true
  | _ => false
  end.

Definition counted_lines (s : State) : nat :=
  length (List.filter is_counted (stderr s)).

(* an archive root with day directories, a stray file and other names *)
Definition sample_root : list (string * bool) :=
  [("20240102", true); ("notes", true); ("20231231", true); ("20240101", false);
   ("2024010a", true); ("202401011", true); ("20240101", true)].

(** ** Entries as the directory scan yields them *)

(* os.DirEntry before its type check has answered: is_file() follows a
   symbolic link and raises OSError when the link cannot be followed;
   [r_stat] is stat().st_mtime as in [e_stat] *)
Record RawEntry : Type := {
  r_name : string;
  r_is_file : Result bool;
  r_stat : option Z
}.

(* the body of the [for entry in it] loop of list_jpgs_in_range, with
   entry.is_file() as the call it is: outside the inner try, so what it
   raises leaves the loop *)
Fixpoint scan_raw_entries (dir_path : Dir) (start_ts end_ts : Z)
    (entries : list RawEntry) (out : list Frame) : Result (list Frame) :=
  match entries with
  | [] => Ok out
  | entry :: rest =>
      match r_is_file entry with
      | Raise e => Raise e
      | Ok is_file =>
          if negb is_file then scan_raw_entries dir_path start_ts end_ts rest out
          else
            let name := r_name entry in
            if negb (endswith_any name JPEG_EXTS) then
              scan_raw_entries dir_path start_ts end_ts rest out
            else
              match r_stat entry with
              | None => scan_raw_entries dir_path start_ts end_ts rest out
              | Some mt =>
                  if (mt <? start_ts) || (mt >=? end_ts) then
                    scan_raw_entries dir_path start_ts end_ts rest out
                  else
                    scan_raw_entries dir_path start_ts end_ts rest
                      (out ++ [((dir_path, name), mt)])
              end
      end
  end.

(* list_jpgs_in_range on a directory given by dir_path.exists() and by what
   os.scandir yields *)
Definition list_jpgs_in_range_raw (dir_exists_ : bool) (listing : Result (list RawEntry))
    (dir_path : Dir) (start_dt end_dt : datetime) : Result (list Frame) :=
  if negb dir_exists_ then Ok []
  else
    let start_ts := timestamp start_dt in
    let end_ts := timestamp end_dt in
    match bind_result listing
            (fun entries => scan_raw_entries dir_path start_ts end_ts entries []) with
    | Ok out => Ok (sort_by_mtime out)
    | Raise e => if is_FileNotFoundError e then Ok [] else Raise e
    end.

(* the entries with their type checks made, in listing order: the first
   check that raises, or every entry with its answer *)
Fixpoint type_checked (entries : list RawEntry) : Result (list DirEntry) :=
  match entries with
  | [] => Ok []
  | entry :: rest =>
      match r_is_file entry with
      | Raise e => Raise e
      | Ok is_file =>
          bind_result (type_checked rest)
            (fun rest' =>
               Ok ({| e_name := r_name entry; e_is_file := is_file; e_stat := r_stat entry |}
                     :: rest'))
      end
  end.

(** ** The archive by directory name *)

(* date.min.toordinal(), date.max.toordinal() and date(1970, 1, 1).toordinal() *)
Definition MIN_ORDINAL : Z := 1.
Definition MAX_ORDINAL : Z := 3652059.

Record Archive : Type := {
  (* (archive_root / day / camera).exists() *)
  a_dir_exists : string -> string -> bool;
  (* os.scandir(archive_root / day / camera) *)
  a_scandir : string -> string -> Result (list RawEntry);
  (* datetime.strptime(day, "%Y%m%d"), as the ordinal of the date it
     returns or the exception it raises *)
  a_strptime : string -> Result Z;
  (* strftime("%Y%m%d") of the date with the given ordinal *)
  a_strftime : Z -> string;
  (* archive_root.iterdir() as names with is_dir(); None: no such root *)
  a_root : option (list (string * bool));
  (* what does not go through a directory name: resolve, encoder, clock
     and ffmpeg_in_path *)
  a_base : Env
}.

(* the name of the directory of day number [n] in a run on the directory
   [day], which parsed to [d]: the run's own directory keeps the name it was
   given, any other day is named by strftime *)
Definition day_name (a : Archive) (day : string) (d n : Z) : string :=
  if n =? d then day else a_strftime a n.

(* the archive as a run on [day] sees it once the name has parsed to [d]:
   day numbers are date ordinals, and every listing comes with the type
   checks of its entries *)
Definition env_for (a : Archive) (day : string) (d : Z) : Env :=
  {| dir_exists := fun dir => a_dir_exists a (day_name a day d (fst dir)) (snd dir);
     scandir := fun dir =>
       bind_result (a_scandir a (day_name a day d (fst dir)) (snd dir)) type_checked;
     resolve := resolve (a_base a);
     encoder := encoder (a_base a);
     clock := clock (a_base a);
     archive_root_exists := archive_root_exists (a_base a);
     day_dirs := day_dirs (a_base a);
     ffmpeg_in_path := ffmpeg_in_path (a_base a) |}.

(* one iteration of the hour loop, from hour_window on: the window's end is
   start + timedelta(hours=1, minutes=OVERLAP_MINUTES), which raises
   OverflowError past datetime.max *)
Definition hour_body_named (a : Archive) (cfg : Config) (day : string) (d : Z)
    (ctx : DayCtx) (hour : Z) (built : nat) : M nat :=
  if (MAX_ORDINAL + 1) * DAY <=? snd (hour_window (day_dt ctx) hour) then
    raise OverflowError
  else hour_body (env_for a day d) cfg ctx hour built.

(* build_for_camera_day on the directory named [day] *)
Definition build_for_camera_day_named (a : Archive) (cfg : Config) (day camera_ : string)
    : M nat :=
  if negb (a_dir_exists a day camera_) then
    eprint (LogMissingCameraDirNamed day camera_) ;;
    ret 0%nat
  else
    let* now_ := datetime_now (a_base a) in
    (* day_dt = yyyymmdd_to_date(day) *)
    let* d := lift (a_strptime a day) in
    let ctx := day_ctx d camera_ now_ in
    (* prev_day_dt = day_dt - timedelta(days=1) raises OverflowError before
       datetime.min *)
    if prev_day_dt ctx <? MIN_ORDINAL * DAY then raise OverflowError
    else
      for_hours (hour_body_named a cfg day d ctx) (range0 (current_hour ctx + 1)) 0%nat.

(* the [for cam in cfg.cameras] loop of main *)
Fixpoint for_cameras_named (a : Archive) (cfg : Config) (day : string) (cams : list string)
    (total_built : nat) : M nat :=
  match cams with
  | [] => ret total_built
  | cam :: rest =>
      eprint (LogCameraNamed cam day) ;;
      let* built := build_for_camera_day_named a cfg day cam in
      for_cameras_named a cfg day rest (total_built + built)%nat
  end.

(* day = cfg.day or pick_latest_day(cfg.archive_root): an empty --day is
   falsy *)
Definition resolved_day_named (a : Archive) (day_arg : option string) : option string :=
  match day_arg with
  | Some (String c rest) => Some (String c rest)
  | _ => pick_latest_day_name (a_root a)
  end.

(* main with --day as the string given on the command line ([ns_day] is not
   consulted); the result is the exit status *)
Definition main_named (a : Archive) (ns : Namespace) (day_arg : option string) : M Z :=
  let cams := selected_cameras ns in
  match cams with
  | [] => eprint LogNoCameraSelected ;; ret 2
  | _ =>
      let cfg := {| cfg_day := ns_day ns; cameras := cams; encoding := ns_encoding ns;
                    min_frames := ns_min_frames ns; verbose := ns_verbose ns |} in
      match a_root a with
      | None => eprint LogArchiveRootNotFound ;; ret 2
      | Some _ =>
          match resolved_day_named a day_arg with
          | None | Some EmptyString => eprint LogNoDayDirs ;; ret 1
          | Some day =>
              let* _ffmpeg := require_ffmpeg (a_base a) in
              let* total_built := for_cameras_named a cfg day (cameras cfg) 0%nat in
              eprint (LogDone total_built) ;;
              ret 0
          end
      end
  end.


(* str.isascii *)
Definition isascii (name : string) : bool :=
  forallb (fun c => (nat_of_ascii c <? 128)%nat) (list_ascii_of_string name).

(** Every name of the listing is in ASCII: there str.isdigit and len are
    the tests [isdigit] and [String.length] make on bytes. *)
Definition ascii_names (entries : list (string * bool)) : bool :=
  forallb (fun entry => isascii (fst entry)) entries.


(** ** Sample archives *)

Definition raw_jpg (name : string) (mt : Z) : RawEntry :=
  {| r_name := name; r_is_file := Ok true; r_stat := Some mt |}.

(* errno.ELOOP: too many levels of symbolic links *)
Definition ELOOP : Z := 40.

(* 2024-01-02 *)
Definition jan2 : Z := 738887.

(* two frames of the fourth hour and, between them in the listing, a
   symbolic link that points to itself *)
Definition looping_entries : list RawEntry :=
  [ raw_jpg "a.jpg" (at_time jan2 3 10 0);
    {| r_name := "loop.jpg"; r_is_file := Raise (OSError ELOOP); r_stat := None |};
    raw_jpg "b.jpg" (at_time jan2 3 20 0) ].

(* the same directory with a regular file whose stat fails in place of the
   link *)
Definition unstatable_entries : list RawEntry :=
  [ raw_jpg "a.jpg" (at_time jan2 3 10 0);
    {| r_name := "gone.jpg"; r_is_file := Ok true; r_stat := None |};
    raw_jpg "b.jpg" (at_time jan2 3 20 0) ].

(* datetime.strptime and strftime on the day names the samples use *)
Definition sample_strptime (day : string) : Result Z :=
  if String.eqb day "20240102" then Ok jan2
  else if String.eqb day "20240101" then Ok (jan2 - 1)
  else if String.eqb day "00010101" then Ok MIN_ORDINAL
  else if String.eqb day "99991231" then Ok MAX_ORDINAL
  else Raise ValueError.

Definition sample_strftime (n : Z) : string :=
  if n =? jan2 then "20240102"
  else if n =? jan2 - 1 then "20240101"
  else if n =? MAX_ORDINAL - 1 then "99991230"
  else "".

Fixpoint lookup_named (day cam : string)
    (dirs : list (string * string * Result (list RawEntry))) : option (Result (list RawEntry)) :=
  match dirs with
  | [] => None
  | (day', cam', r) :: rest =>
      if String.eqb day' day && String.eqb cam' cam then Some r else lookup_named day cam rest
  end.

(* an archive given by its day directories and the listing of each of its
   camera-day directories *)
Definition sample_archive (root : list (string * bool))
    (dirs : list (string * string * Result (list RawEntry)))
    (enc : nat -> EncResult) (now_ : datetime) : Archive :=
  {| a_dir_exists := fun day cam => bool_decide (is_Some (lookup_named day cam dirs));
     a_scandir := fun day cam => default (Raise FileNotFoundError) (lookup_named day cam dirs);
     a_strptime := sample_strptime;
     a_strftime := sample_strftime;
     a_root := Some root;
     a_base := sample_env [] enc now_ |}.

(* the day directory 20240102 with two more frames in its sixth hour, seen
   from a later day; the encoder is killed on its first run and succeeds
   afterwards *)
Definition flaky_entries : list RawEntry :=
  unstatable_entries ++
  [raw_jpg "c.jpg" (at_time jan2 5 10 0); raw_jpg "d.jpg" (at_time jan2 5 20 0)].

Definition flaky_archive : Archive :=
  sample_archive [("20240102", true)]
    [("20240102", "driveway", Ok flaky_entries)]
    (fun n => match n with
              | O => EncExit (-9) (Some (video (at_time (jan2 + 100) 0 0 1))) "killed"
              | _ => EncExit 0 (Some (video (at_time (jan2 + 100) 0 0 2))) ""
              end)
    (at_time (jan2 + 100) 0 0 0).

(* the same day with the link that points to itself *)
Definition looping_archive : Archive :=
  sample_archive [("20240102", true)]
    [("20240102", "driveway", Ok looping_entries)]
    (fun _ => EncExit 0 (Some (video (at_time (jan2 + 100) 0 0 1))) "")
    (at_time (jan2 + 100) 0 0 0).

(* the same day when its directory exists but cannot be listed *)
Definition unreadable_archive : Archive :=
  sample_archive [("20240102", true)]
    [("20240102", "driveway", Raise PermissionError)]
    (fun _ => EncExit 0 (Some (video (at_time (jan2 + 100) 0 0 1))) "")
    (at_time (jan2 + 100) 0 0 0).

(* an archive whose latest eight-digit directory is no calendar date *)
Definition misnamed_archive : Archive :=
  sample_archive [("20240102", true); ("20241345", true)]
    [("20240102", "driveway", Ok unstatable_entries);
     ("20241345", "driveway", Ok unstatable_entries)]
    (fun _ => EncExit 0 (Some (video (at_time (jan2 + 100) 0 0 1))) "")
    (at_time (jan2 + 100) 0 0 0).

(* the first and the last day a datetime can hold, with nothing in them *)
Definition range_ends_archive : Archive :=
  sample_archive [("00010101", true); ("99991231", true)]
    [("00010101", "driveway", Ok []); ("99991231", "driveway", Ok [])]
    (fun _ => EncExit 0 None "")
    (at_time jan2 0 0 0).

(** ** Proof automation *)

Ltac unfold_time :=
  unfold at_time, timedelta, OVERLAP_MINUTES, DAY, HOUR, MINUTE, USEC in *.

Ltac time_numerals :=
  unfold at_time, timedelta, OVERLAP_MINUTES in *;
  change DAY with 86400000000 in *; change HOUR with 3600000000 in *;
  change MINUTE with 60000000 in *; change USEC with 1000000 in *.

Ltac solve_logged :=
  unfold logged_more; simpl;
  first [ exists []; rewrite app_nil_r; reflexivity
        | eexists; rewrite <- ?app_assoc; reflexivity ].

Ltac sample_up_to_date :=
  exists (video (at_time 100 6 0 0));
  split;
  [ vm_compute; reflexivity
  | let f := fresh "f" in
    let Hin := fresh "Hin" in
    intros f Hin; simpl in Hin;
    repeat (destruct Hin as [<- | Hin]); try contradiction;
    vm_compute; intro; discriminate ].

Ltac sample_hour :=
  match goal with
  | |- exists frames, ?sel = Ok frames /\ _ =>
      let r := eval vm_compute in sel in
      match r with
      | Ok ?fr =>
          exists fr; split;
          [ vm_compute; reflexivity
          | first [ intros Hne; exfalso; apply Hne; reflexivity
                  | intros _; sample_up_to_date ] ]
      end
  end.

(** * Properties *)

(** ** Suffix tests *)

Lemma append_cons (c : ascii) (a b : string) : String c a +:+ b = String c (a +:+ b).
Proof. reflexivity. Qed.

Lemma string_length_app (a b : string) :
  String.length (a +:+ b) = (String.length a + String.length b)%nat.
Proof.
  induction a as [|c a IH]; [reflexivity |].
  rewrite append_cons. simpl. now rewrite IH.
Qed.

Lemma substring_all (s : string) : substring 0 (String.length s) s = s.
Proof. induction s as [|c s IH]; simpl; [reflexivity | now rewrite IH]. Qed.

Lemma substring_skip (a b : string) :
  substring (String.length a) (String.length b) (a +:+ b) = b.
Proof.
  induction a as [|c a IH]; [apply substring_all |].
  rewrite append_cons. simpl. exact IH.
Qed.

Lemma substring_split (n : nat) : forall s : string,
  (n <= String.length s)%nat ->
  s = substring 0 n s +:+ substring n (String.length s - n) s.
Proof.
  induction n as [|n IH]; intros s Hn.
  - rewrite Nat.sub_0_r, substring_all. now destruct s.
  - destruct s as [|c s]; simpl in Hn; [lia |].
    simpl. rewrite append_cons. f_equal. apply IH. lia.
Qed.

(** [endswith name suffix] holds exactly when [name] is some text followed
    by [suffix]. *)
Lemma endswith_iff (name suffix : string) :
  endswith name suffix = true <-> exists base, name = base +:+ suffix.
Proof.
  unfold endswith. rewrite andb_true_iff, Nat.leb_le, String.eqb_eq. split.
  - intros [Hlen Hsub].
    exists (substring 0 (String.length name - String.length suffix) name).
    pose proof (substring_split (String.length name - String.length suffix) name) as H.
    replace (String.length name - (String.length name - String.length suffix))%nat
      with (String.length suffix) in H by lia.
    rewrite Hsub in H. apply H. lia.
  - intros [base ->]. rewrite string_length_app. split; [lia |].
    replace (String.length base + String.length suffix - String.length suffix)%nat
      with (String.length base) by lia.
    apply substring_skip.
Qed.

Lemma endswith_any_iff (name : string) (suffixes : list string) :
  endswith_any name suffixes = true <->
  exists base ext, In ext suffixes /\ name = base +:+ ext.
Proof.
  unfold endswith_any. rewrite existsb_exists. split.
  - intros (ext & Hin & Hend). apply endswith_iff in Hend as [base ->]. eauto.
  - intros (base & ext & Hin & ->). exists ext. split; [assumption |].
    apply endswith_iff. eauto.
Qed.

(** ** The stable sort on modification times *)

Lemma insert_by_mtime_perm (f : Frame) (l : list Frame) :
  Permutation (f :: l) (insert_by_mtime f l).
Proof.
  induction l as [|g l IH]; simpl; [reflexivity |].
  destruct (snd f <=? snd g); [reflexivity |].
  rewrite perm_swap. now constructor.
Qed.

Lemma sort_by_mtime_perm (l : list Frame) : Permutation l (sort_by_mtime l).
Proof.
  induction l as [|f l IH]; simpl; [reflexivity |].
  rewrite <- insert_by_mtime_perm. now constructor.
Qed.

Lemma insert_by_mtime_sorted (f : Frame) (l : list Frame) :
  mtime_sorted l -> mtime_sorted (insert_by_mtime f l).
Proof.
  unfold mtime_sorted. induction l as [|g l IH]; intros Hs; simpl.
  - repeat constructor.
  - inversion Hs as [|? ? Hl Hg]; subst.
    destruct (Z.leb_spec (snd f) (snd g)) as [Hle | Hgt].
    + constructor; [assumption |]. constructor; [assumption |].
      eapply List.Forall_impl; [| exact Hg]. unfold mtime_le. intros a Ha. lia.
    + constructor; [now apply IH |].
      apply (proj2 (List.Forall_forall _ _)). intros a Ha.
      apply (Permutation_in _ (Permutation_sym (insert_by_mtime_perm f l))) in Ha.
      destruct Ha as [<- | Ha].
      * unfold mtime_le. lia.
      * now apply (proj1 (List.Forall_forall _ _) Hg).
Qed.

Lemma sort_by_mtime_sorted (l : list Frame) : mtime_sorted (sort_by_mtime l).
Proof.
  induction l as [|f l IH]; simpl; [constructor | now apply insert_by_mtime_sorted].
Qed.

(** A sorted list ends in its newest frame. *)
Lemma mtime_sorted_last (l : list Frame) (f g : Frame) :
  mtime_sorted l -> last l = Some g -> In f l -> snd f <= snd g.
Proof.
  unfold mtime_sorted. induction l as [|a l IH]; intros Hs Hlast Hin; [inversion Hin |].
  inversion Hs as [|? ? Hl Ha]; subst.
  destruct l as [|b l].
  - simpl in Hlast. inversion Hlast; subst. destruct Hin as [<- | []]. lia.
  - change (last (a :: b :: l)) with (last (b :: l)) in Hlast.
    destruct Hin as [<- | Hin]; [| now apply IH].
    assert (Hg : In g (b :: l)).
    { apply list_elem_of_In. apply last_Some_elem_of. exact Hlast. }
    apply (proj1 (List.Forall_forall _ _) Ha) in Hg. exact Hg.
Qed.

(** Two sorted runs, the first entirely older than the second, concatenate to
    a sorted list. *)
Lemma mtime_sorted_app (a b : list Frame) (t : Z) :
  mtime_sorted a -> mtime_sorted b ->
  (forall f, In f a -> snd f < t) -> (forall g, In g b -> t <= snd g) ->
  mtime_sorted (a ++ b).
Proof.
  unfold mtime_sorted. induction a as [|x a IH]; intros Ha Hb Hlt Hge; simpl; [assumption |].
  inversion Ha as [|? ? Ha' Hx]; subst. constructor.
  - apply IH; auto. intros f Hf. apply Hlt. now right.
  - apply Forall_app. split; [assumption |].
    apply (proj2 (List.Forall_forall _ _)). intros g Hg.
    specialize (Hlt x (or_introl eq_refl)). specialize (Hge g Hg).
    unfold mtime_le. lia.
Qed.

(** ** The frame selector *)

Lemma scan_entries_spec (dir_path : Dir) (start_ts end_ts : Z) (entries : list DirEntry) :
  forall out,
    scan_entries dir_path start_ts end_ts entries out =
    out ++ frames_in_window dir_path start_ts end_ts entries.
Proof.
  unfold frames_in_window.
  induction entries as [|entry rest IH]; intros out; simpl.
  - now rewrite app_nil_r.
  - unfold frame_of_entry at 1.
    destruct (e_is_file entry); simpl; [| apply IH].
    destruct (endswith_any (e_name entry) JPEG_EXTS); simpl; [| apply IH].
    destruct (e_stat entry) as [mt|]; [| apply IH].
    rewrite Z.geb_leb.
    destruct (Z.ltb_spec mt start_ts), (Z.leb_spec end_ts mt),
      (Z.leb_spec start_ts mt), (Z.ltb_spec mt end_ts); simpl; try lia; try apply IH.
    rewrite IH, <- app_assoc. reflexivity.
Qed.

Lemma frames_in_window_In (dir_path : Dir) (start_ts end_ts : Z) (entries : list DirEntry)
    (p : Path) (mt : Z) :
  In (p, mt) (frames_in_window dir_path start_ts end_ts entries) <->
  exists entry,
    In entry entries /\ e_is_file entry = true /\
    endswith_any (e_name entry) JPEG_EXTS = true /\
    e_stat entry = Some mt /\ start_ts <= mt < end_ts /\ p = (dir_path, e_name entry).
Proof.
  unfold frames_in_window. rewrite <- list_elem_of_In, list_elem_of_omap. split.
  - intros (entry & Hin & Hf). exists entry. apply list_elem_of_In in Hin.
    unfold frame_of_entry in Hf.
    destruct (e_is_file entry); simpl in Hf; [| discriminate].
    destruct (endswith_any (e_name entry) JPEG_EXTS); simpl in Hf; [| discriminate].
    destruct (e_stat entry) as [mt'|]; [| discriminate].
    destruct (Z.leb_spec start_ts mt'), (Z.ltb_spec mt' end_ts); simpl in Hf;
      try discriminate.
    inversion Hf; subst. repeat split; auto.
  - intros (entry & Hin & Hfile & Hext & Hstat & [Hlo Hhi] & ->).
    exists entry. split; [now apply list_elem_of_In |].
    unfold frame_of_entry. rewrite Hfile, Hext, Hstat. simpl.
    destruct (Z.leb_spec start_ts mt), (Z.ltb_spec mt end_ts); simpl; try lia.
    reflexivity.
Qed.

Lemma list_jpgs_in_range_missing (env : Env) (d : Dir) (start_dt end_dt : datetime) :
  dir_exists env d = false -> list_jpgs_in_range env d start_dt end_dt = Ok [].
Proof. intros H. unfold list_jpgs_in_range. now rewrite H. Qed.

Lemma list_jpgs_in_range_listed (env : Env) (d : Dir) (start_dt end_dt : datetime)
    (entries : list DirEntry) :
  dir_exists env d = true -> scandir env d = Ok entries ->
  list_jpgs_in_range env d start_dt end_dt =
  Ok (sort_by_mtime (frames_in_window d start_dt end_dt entries)).
Proof.
  intros Hex Hscan. unfold list_jpgs_in_range, timestamp.
  rewrite Hex, Hscan. simpl. now rewrite scan_entries_spec.
Qed.

(** Whatever the selector returns is sorted and lies inside the window. *)
Lemma list_jpgs_in_range_sound (env : Env) (d : Dir) (start_dt end_dt : datetime)
    (frames : list Frame) :
  list_jpgs_in_range env d start_dt end_dt = Ok frames ->
  mtime_sorted frames /\ forall f, In f frames -> start_dt <= snd f < end_dt.
Proof.
  unfold list_jpgs_in_range, timestamp.
  destruct (dir_exists env d); simpl.
  - destruct (scandir env d) as [entries | e].
    + intros H. inversion H; subst. split; [apply sort_by_mtime_sorted |].
      intros [p mt] Hin.
      apply (Permutation_in _ (Permutation_sym (sort_by_mtime_perm _))) in Hin.
      rewrite scan_entries_spec in Hin. simpl in Hin.
      apply frames_in_window_In in Hin as (entry & _ & _ & _ & _ & Hr & _). exact Hr.
    + destruct (is_FileNotFoundError e); intros H; inversion H; subst.
      split; [constructor | intros f []].
  - intros H. inversion H; subst. split; [constructor | intros f []].
Qed.


(** What the selector returns on a listed directory, by membership. *)
Lemma selected_iff (env : Env) (d : Dir) (start_dt end_dt : datetime)
    (entries : list DirEntry) :
  dir_exists env d = true -> scandir env d = Ok entries ->
  exists frames,
    list_jpgs_in_range env d start_dt end_dt = Ok frames /\
    forall p mt,
      In (p, mt) frames <->
      exists entry,
        In entry entries /\ e_is_file entry = true /\
        endswith_any (e_name entry) JPEG_EXTS = true /\
        e_stat entry = Some mt /\ start_dt <= mt < end_dt /\
        p = (d, e_name entry).
Proof.
  intros Hex Hscan.
  exists (sort_by_mtime (frames_in_window d start_dt end_dt entries)).
  split; [now apply list_jpgs_in_range_listed |].
  intros p mt. rewrite <- frames_in_window_In. split; intros Hin.
  - eapply Permutation_in; [symmetry; apply sort_by_mtime_perm | exact Hin].
  - eapply Permutation_in; [apply sort_by_mtime_perm | exact Hin].
Qed.

(** On a listing whose type checks have all answered, and for every
    half-open window, the selector returns exactly the regular files with a
    recognized JPEG suffix whose mtime satisfies start <= mtime < end, as
    (path, mtime) pairs in non-decreasing mtime order; a directory that does
    not exist gives the empty list and no error; an entry whose stat fails
    is skipped and nothing else changes. *)
Lemma selector_on_checked_listing (env : Env) (d : Dir) (start_dt end_dt : datetime) :
  (dir_exists env d = false -> list_jpgs_in_range env d start_dt end_dt = Ok []) /\
  (forall entries,
     dir_exists env d = true -> scandir env d = Ok entries ->
     exists frames,
       list_jpgs_in_range env d start_dt end_dt = Ok frames /\
       Permutation frames (frames_in_window d start_dt end_dt entries) /\
       mtime_sorted frames /\
       (forall p mt,
          In (p, mt) frames <->
          exists entry,
            In entry entries /\ e_is_file entry = true /\
            endswith_any (e_name entry) JPEG_EXTS = true /\
            e_stat entry = Some mt /\ start_dt <= mt < end_dt /\
            p = (d, e_name entry))) /\
  (forall env' pre bad post,
     dir_exists env d = true -> scandir env d = Ok (pre ++ bad :: post) ->
     e_stat bad = None ->
     dir_exists env' d = true -> scandir env' d = Ok (pre ++ post) ->
     list_jpgs_in_range env d start_dt end_dt =
     list_jpgs_in_range env' d start_dt end_dt).
Proof.
  split; [apply list_jpgs_in_range_missing |]. split.
  - intros entries Hex Hscan.
    exists (sort_by_mtime (frames_in_window d start_dt end_dt entries)).
    split; [now apply list_jpgs_in_range_listed |].
    split; [symmetry; apply sort_by_mtime_perm |].
    split; [apply sort_by_mtime_sorted |].
    intros p mt. rewrite <- frames_in_window_In. split; intros Hin.
    + eapply Permutation_in; [symmetry; apply sort_by_mtime_perm | exact Hin].
    + eapply Permutation_in; [apply sort_by_mtime_perm | exact Hin].
  - intros env' pre bad post Hex Hscan Hbad Hex' Hscan'.
    rewrite (list_jpgs_in_range_listed env d _ _ _ Hex Hscan).
    rewrite (list_jpgs_in_range_listed env' d _ _ _ Hex' Hscan').
    unfold frames_in_window. rewrite !omap_app. simpl.
    unfold frame_of_entry at 2. rewrite Hbad.
    now destruct (e_is_file bad && endswith_any (e_name bad) JPEG_EXTS).
Qed.

Example selector_on_sample_listing :
  list_jpgs_in_range mixed_env (driveway 99) (at_time 100 3 0 0) (at_time 100 4 5 0) = Ok [] /\
  (exists frames,
     list_jpgs_in_range mixed_env (driveway 100) (at_time 100 3 0 0) (at_time 100 4 5 0)
       = Ok frames /\
     Permutation frames
       (frames_in_window (driveway 100) (at_time 100 3 0 0) (at_time 100 4 5 0)
          mixed_entries) /\
     mtime_sorted frames /\
     (forall p mt,
        In (p, mt) frames <->
        exists entry,
          In entry mixed_entries /\ e_is_file entry = true /\
          endswith_any (e_name entry) JPEG_EXTS = true /\
          e_stat entry = Some mt /\ at_time 100 3 0 0 <= mt < at_time 100 4 5 0 /\
          p = (driveway 100, e_name entry))) /\
  list_jpgs_in_range mixed_env (driveway 100) (at_time 100 3 0 0) (at_time 100 4 5 0) =
  list_jpgs_in_range mixed_env_readable (driveway 100) (at_time 100 3 0 0) (at_time 100 4 5 0).
Proof.
  split; [| split].
  - apply (selector_on_checked_listing mixed_env (driveway 99)). reflexivity.
  - apply (selector_on_checked_listing mixed_env (driveway 100)); reflexivity.
  - apply (proj2 (proj2 (selector_on_checked_listing mixed_env (driveway 100)
                           (at_time 100 3 0 0) (at_time 100 4 5 0)))
             mixed_env_readable (firstn 2 mixed_entries)
             {| e_name := "gone.jpg"; e_is_file := true; e_stat := None |}
             (skipn 3 mixed_entries)); reflexivity.
Defined.

(** The loop on raw entries is the loop on checked entries once every type
    check has answered, and raises what the first failing check raises. *)
Lemma scan_raw_entries_type_checked (dir_path : Dir) (start_ts end_ts : Z)
    (entries : list RawEntry) :
  forall out,
    scan_raw_entries dir_path start_ts end_ts entries out =
    bind_result (type_checked entries)
      (fun entries' => Ok (scan_entries dir_path start_ts end_ts entries' out)).
Proof.
  induction entries as [|entry rest IH]; intros out; [reflexivity |].
  cbn [scan_raw_entries type_checked].
  destruct (r_is_file entry) as [is_file | e]; [| reflexivity].
  destruct (type_checked rest) as [rest' | e] eqn:Hrest.
  - cbn [bind_result scan_entries e_is_file e_name e_stat].
    destruct is_file; cbn [negb]; [| now rewrite IH].
    destruct (endswith_any (r_name entry) JPEG_EXTS); cbn [negb]; [| now rewrite IH].
    destruct (r_stat entry) as [mt|]; [| now rewrite IH].
    destruct ((mt <? start_ts) || (mt >=? end_ts)); now rewrite IH.
  - cbn [bind_result].
    destruct is_file; cbn [negb]; [| now rewrite IH].
    destruct (endswith_any (r_name entry) JPEG_EXTS); cbn [negb]; [| now rewrite IH].
    destruct (r_stat entry) as [mt|]; [| now rewrite IH].
    destruct ((mt <? start_ts) || (mt >=? end_ts)); now rewrite IH.
Qed.

(** The selector on a directory as scandir yields it is the selector on the
    environment whose listings carry the type checks of their entries. *)
Lemma list_jpgs_in_range_raw_type_checked (env : Env) (dir_path : Dir)
    (listing : Result (list RawEntry)) (start_dt end_dt : datetime) :
  scandir env dir_path = bind_result listing type_checked ->
  list_jpgs_in_range_raw (dir_exists env dir_path) listing dir_path start_dt end_dt =
  list_jpgs_in_range env dir_path start_dt end_dt.
Proof.
  intros Hscan. unfold list_jpgs_in_range_raw, list_jpgs_in_range. rewrite Hscan.
  destruct (dir_exists env dir_path); cbn [negb]; [| reflexivity].
  destruct listing as [entries | e]; cbn [bind_result]; [| reflexivity].
  rewrite scan_raw_entries_type_checked.
  destruct (type_checked entries) as [entries' | e]; reflexivity.
Qed.

Lemma list_jpgs_in_range_env_for (a : Archive) (day : string) (d : Z) (dir_path : Dir)
    (start_dt end_dt : datetime) :
  list_jpgs_in_range (env_for a day d) dir_path start_dt end_dt =
  list_jpgs_in_range_raw
    (a_dir_exists a (day_name a day d (fst dir_path)) (snd dir_path))
    (a_scandir a (day_name a day d (fst dir_path)) (snd dir_path))
    dir_path start_dt end_dt.
Proof.
  symmetry.
  apply (list_jpgs_in_range_raw_type_checked (env_for a day d) dir_path). reflexivity.
Qed.


(** C5 fails on the code: entry.is_file() is called outside the try that
    guards entry.stat(), so where a regular file whose stat fails is skipped
    and the other frames of the window are returned, a symbolic link that
    points to itself makes the whole selection raise OSError: the frames
    listed before and after it are lost with it. *)
Theorem C5_type_check_failure_aborts :
  list_jpgs_in_range_raw true (Ok unstatable_entries) (jan2, "driveway")
    (at_time jan2 3 0 0) (at_time jan2 4 5 0)
    = Ok [((jan2, "driveway", "a.jpg"), at_time jan2 3 10 0);
          ((jan2, "driveway", "b.jpg"), at_time jan2 3 20 0)] /\
  list_jpgs_in_range_raw true (Ok looping_entries) (jan2, "driveway")
    (at_time jan2 3 0 0) (at_time jan2 4 5 0)
    = Raise (OSError ELOOP) /\
  scan_raw_entries (jan2, "driveway") (at_time jan2 3 0 0) (at_time jan2 4 5 0)
    (skipn 1 looping_entries) [((jan2, "driveway", "a.jpg"), at_time jan2 3 10 0)]
    = Raise (OSError ELOOP) /\
  select_frames (env_for looping_archive "20240102" jan2)
    (day_ctx jan2 "driveway" (at_time (jan2 + 100) 0 0 0)) 3
    = Raise (OSError ELOOP).
Proof. vm_compute. repeat split; reflexivity. Qed.

(** The selector on the sample directory: the two frames of the hour and the
    one in the overlap, oldest first. *)
Example list_jpgs_in_range_mixed :
  list_jpgs_in_range mixed_env (driveway 100) (at_time 100 3 0 0) (at_time 100 4 5 0) =
  Ok [((driveway 100, "early.jpeg"), at_time 100 3 0 0);
      ((driveway 100, "late.jpg"), at_time 100 3 59 59);
      ((driveway 100, "overlap.JPG"), at_time 100 4 4 59)].
Proof. vm_compute. reflexivity. Qed.

(** C10, as stated, fails: regular files named [snap.Jpg] and [shot.JPeg]
    with mtimes inside the window end in .jpg and .jpeg up to letter case,
    yet neither is a frame candidate. *)
Lemma C10_mixed_case_not_selected :
  is_jpeg_name_ci "snap.Jpg" = true /\ is_jpeg_name_ci "shot.JPeg" = true /\
  endswith_any "snap.Jpg" JPEG_EXTS = false /\
  endswith_any "shot.JPeg" JPEG_EXTS = false /\
  list_jpgs_in_range mixed_case_env (driveway 100) (at_time 100 3 0 0) (at_time 100 4 5 0)
    = Ok [].
Proof. vm_compute. repeat split; reflexivity. Qed.

(** C10, amended: a regular file of the directory whose mtime is known and
    inside the window is selected exactly when its name ends in one of the
    four spellings .jpg, .jpeg, .JPG, .JPEG; the match is exact on letter
    case. *)
Theorem C10_recognized_suffixes (env : Env) (d : Dir) (start_dt end_dt : datetime)
    (entries : list DirEntry) (entry : DirEntry) (mt : Z) :
  dir_exists env d = true -> scandir env d = Ok entries ->
  In entry entries -> e_is_file entry = true ->
  e_stat entry = Some mt -> start_dt <= mt < end_dt ->
  ((exists base ext,
      In ext [".jpg"; ".jpeg"; ".JPG"; ".JPEG"] /\ e_name entry = base +:+ ext) <->
   (exists frames,
      list_jpgs_in_range env d start_dt end_dt = Ok frames /\
      In ((d, e_name entry), mt) frames)).
Proof.
  intros Hex Hscan Hin Hfile Hstat Hwin.
  destruct (selected_iff env d start_dt end_dt entries Hex Hscan) as (frames & Hok & Hiff).
  change [".jpg"; ".jpeg"; ".JPG"; ".JPEG"] with JPEG_EXTS.
  rewrite <- endswith_any_iff. split.
  - intros Hext. exists frames. split; [exact Hok |].
    apply Hiff. exists entry. auto 10.
  - intros (frames' & Hok' & Hin'). rewrite Hok in Hok'. inversion Hok'; subst frames'.
    apply Hiff in Hin' as (entry' & _ & _ & Hext & _ & _ & Heq).
    inversion Heq as [Hname]. now rewrite Hname.
Qed.

Lemma C10_recognized_suffixes_witness :
  (exists base ext,
     In ext [".jpg"; ".jpeg"; ".JPG"; ".JPEG"] /\ "overlap.JPG" = base +:+ ext) <->
  (exists frames,
     list_jpgs_in_range mixed_env (driveway 100) (at_time 100 3 0 0) (at_time 100 4 5 0)
       = Ok frames /\
     In ((driveway 100, "overlap.JPG"), at_time 100 4 4 59) frames).
Proof.
  apply (C10_recognized_suffixes mixed_env (driveway 100) (at_time 100 3 0 0)
           (at_time 100 4 5 0) mixed_entries (jpg "overlap.JPG" (at_time 100 4 4 59))).
  - reflexivity.
  - reflexivity.
  - simpl. tauto.
  - reflexivity.
  - reflexivity.
  - vm_compute. split; [discriminate | reflexivity].
Defined.

(** ** Hour windows *)

Lemma date_of_day (day : Z) : date_of (day * DAY) = day.
Proof. unfold date_of. apply Z.div_mul. unfold_time. lia. Qed.

Lemma hour_of_bounds (t : datetime) : 0 <= hour_of t <= 23.
Proof.
  unfold hour_of. time_numerals.
  pose proof (Z.mod_pos_bound t 86400000000 ltac:(lia)) as Hb.
  split; [apply Z.div_pos; lia |].
  apply Z.lt_succ_r. apply Z.div_lt_upper_bound; lia.
Qed.

Lemma date_of_prev_day (day : Z) :
  date_of (yyyymmdd_to_date day - timedelta 1 0 0) = day - 1.
Proof.
  unfold yyyymmdd_to_date.
  replace (day * DAY - timedelta 1 0 0) with ((day - 1) * DAY) by (unfold_time; lia).
  apply date_of_day.
Qed.

Lemma hour_window_day (day hour : Z) :
  hour_window (yyyymmdd_to_date day) hour = (at_time day hour 0 0, at_time day (hour + 1) 5 0).
Proof.
  unfold hour_window, yyyymmdd_to_date, replace_hm. rewrite date_of_day.
  f_equal; unfold_time; lia.
Qed.

Lemma prev_window_day (day : Z) :
  replace_hm (yyyymmdd_to_date day - timedelta 1 0 0) 23 (60 - OVERLAP_MINUTES)
    = at_time (day - 1) 23 55 0 /\
  replace_hm (yyyymmdd_to_date day) 0 0 = at_time day 0 0 0.
Proof.
  unfold replace_hm. rewrite date_of_prev_day.
  unfold yyyymmdd_to_date. rewrite date_of_day.
  split; unfold_time; lia.
Qed.

(** The window of an hour, with the bounds written as clock times. *)
Lemma select_frames_later_hour (env : Env) (day : Z) (cam : string) (now_ : datetime)
    (hour : Z) :
  hour <> 0 ->
  select_frames env (day_ctx day cam now_) hour =
  list_jpgs_in_range env (day, cam) (at_time day hour 0 0)
    (if is_current_hour (day_ctx day cam now_) hour then now_ else at_time day (hour + 1) 5 0).
Proof.
  intros Hh. unfold select_frames, hour_frames, window_end.
  apply Z.eqb_neq in Hh. rewrite Hh.
  cbn [day_dir day_dt day_ctx now]. rewrite hour_window_day. reflexivity.
Qed.

Lemma select_frames_midnight (env : Env) (day : Z) (cam : string) (now_ : datetime) :
  select_frames env (day_ctx day cam now_) 0 =
  bind_result
    (list_jpgs_in_range env (day - 1, cam) (at_time (day - 1) 23 55 0) (at_time day 0 0 0))
    (fun from_prev =>
       bind_result
         (list_jpgs_in_range env (day, cam) (at_time day 0 0 0)
            (if is_current_hour (day_ctx day cam now_) 0 then now_ else at_time day 1 5 0))
         (fun from_day => Ok (from_prev ++ from_day))).
Proof.
  unfold select_frames, hour_frames, window_end. simpl (0 =? 0).  cbv iota.
  cbn [day_dir prev_day_dir prev_day_dt day_dt day_ctx now].
  rewrite hour_window_day, date_of_prev_day.
  destruct (prev_window_day day) as [-> ->]. cbn [fst snd].
  destruct (dir_exists env (day - 1, cam)) eqn:Hex; [reflexivity |].
  now rewrite (list_jpgs_in_range_missing env _ _ _ Hex).
Qed.



(** C3: for hour 0 the selected frames are the frames of the previous day's
    camera directory with mtime in [previous day 23:55:00, day 00:00:00)
    followed by the frames of the day's directory with mtime in
    [00:00:00, 01:05:00), or up to now when hour 0 is the hour in progress;
    the whole list is in chronological order; when the previous day's
    directory does not exist its part is empty and raises nothing. *)
Theorem C3_midnight_window (env : Env) (day : Z) (cam : string) (now_ : datetime) :
  let ctx := day_ctx day cam now_ in
  let from_prev :=
    list_jpgs_in_range env (day - 1, cam) (at_time (day - 1) 23 55 0) (at_time day 0 0 0) in
  let from_day :=
    list_jpgs_in_range env (day, cam) (at_time day 0 0 0)
      (if is_current_hour ctx 0 then now_ else at_time day 1 5 0) in
  (forall a b,
     from_prev = Ok a -> from_day = Ok b ->
     select_frames env ctx 0 = Ok (a ++ b) /\
     mtime_sorted (a ++ b) /\
     (forall f g, In f a -> In g b -> snd f < snd g)) /\
  (dir_exists env (day - 1, cam) = false ->
     from_prev = Ok [] /\ select_frames env ctx 0 = from_day).
Proof.
  intros ctx from_prev from_day. subst ctx. split.
  - intros a b Ha Hb. rewrite select_frames_midnight.
    fold from_prev from_day. rewrite Ha, Hb. simpl.
    apply list_jpgs_in_range_sound in Ha as [Hsa Hina].
    apply list_jpgs_in_range_sound in Hb as [Hsb Hinb].
    split; [reflexivity |]. split.
    + apply (mtime_sorted_app a b (at_time day 0 0 0)); auto.
      * intros f Hf. apply Hina in Hf. lia.
      * intros g Hg. apply Hinb in Hg. lia.
    + intros f g Hf Hg. apply Hina in Hf. apply Hinb in Hg. lia.
  - intros Hex. rewrite select_frames_midnight. fold from_prev from_day.
    assert (Hp : from_prev = Ok []) by (now apply list_jpgs_in_range_missing).
    rewrite Hp. split; [reflexivity |]. simpl. now destruct from_day.
Qed.

Lemma C3_midnight_window_witness :
  select_frames midnight_env (day_ctx 100 "driveway" (at_time 200 0 0 0)) 0 =
    Ok ([((driveway 99, "p2.jpg"), at_time 99 23 56 0)] ++
        [((driveway 100, "c1.jpg"), at_time 100 0 0 1);
         ((driveway 100, "c2.jpg"), at_time 100 1 4 59)]) /\
  select_frames mixed_env (day_ctx 100 "driveway" (at_time 200 0 0 0)) 0 =
    list_jpgs_in_range mixed_env (driveway 100) (at_time 100 0 0 0) (at_time 100 1 5 0).
Proof.
  split.
  - apply (proj1 (C3_midnight_window midnight_env 100 "driveway" (at_time 200 0 0 0)));
      vm_compute; reflexivity.
  - apply (proj2 (C3_midnight_window mixed_env 100 "driveway" (at_time 200 0 0 0))).
    reflexivity.
Defined.

(** ** Effects of the monadic steps *)

Lemma logged_more_refl (s : State) : logged_more s s.
Proof. exists []. now rewrite app_nil_r. Qed.

Lemma logged_more_trans (s1 s2 s3 : State) :
  logged_more s1 s2 -> logged_more s2 s3 -> logged_more s1 s3.
Proof.
  intros [l1 H1] [l2 H2]. exists (l1 ++ l2). now rewrite H2, H1, app_assoc.
Qed.


Lemma only_logged_refl (s : State) : only_logged s s.
Proof. repeat split. apply logged_more_refl. Qed.

Lemma only_logged_trans (s1 s2 s3 : State) :
  only_logged s1 s2 -> only_logged s2 s3 -> only_logged s1 s3.
Proof.
  intros (A1 & T1 & E1 & C1 & L1) (A2 & T2 & E2 & C2 & L2).
  repeat split; try congruence. eapply logged_more_trans; eassumption.
Qed.

Lemma eprint_only_logged (l : LogLine) (s : State) :
  exists s', eprint l s = (Ok tt, s') /\ only_logged s s' /\ stderr s' = stderr s ++ [l].
Proof.
  eexists. split; [reflexivity |]. split; [| reflexivity].
  repeat split. now exists [l].
Qed.

Lemma eprint_if_only_logged (b : bool) (l : LogLine) (s : State) :
  exists s', eprint_if b l s = (Ok tt, s') /\ only_logged s s'.
Proof.
  destruct b; simpl.
  - destruct (eprint_only_logged l s) as (s' & H & Ho & _). eauto.
  - exists s. split; [reflexivity | apply only_logged_refl].
Qed.

Lemma eprint_if_quiet (l : LogLine) (s : State) : eprint_if false l s = (Ok tt, s).
Proof. reflexivity. Qed.

(** The past-hour test only looks: it returns a boolean and may log. *)
Lemma should_skip_past_hour_only_logged (out_mp4 : Path) (frames : list Frame) (v : bool)
    (s : State) :
  exists b s', should_skip_past_hour out_mp4 frames v s = (Ok b, s') /\ only_logged s s'.
Proof.
  unfold should_skip_past_hour.
  destruct (artifacts s !! out_mp4) as [out_file|];
    [| exists false, s; split; [reflexivity | apply only_logged_refl]].
  destruct (newest_mtime frames) as [src_newest|];
    [| exists true, s; split; [reflexivity | apply only_logged_refl]].
  destruct (st_mtime out_file >=? src_newest);
    [| exists false, s; split; [reflexivity | apply only_logged_refl]].
  unfold bind.
  destruct (eprint_if_only_logged v
              (LogSkipUpToDate (snd out_mp4) (st_mtime out_file) src_newest) s)
    as (s' & -> & Ho).
  exists true, s'. split; [reflexivity | exact Ho].
Qed.

(** An artifact at least as new as every frame makes the past-hour test say
    skip. *)
Lemma should_skip_past_hour_up_to_date (out_mp4 : Path) (frames : list Frame) (v : bool)
    (s : State) :
  frames <> [] -> up_to_date s out_mp4 frames ->
  exists s', should_skip_past_hour out_mp4 frames v s = (Ok true, s') /\
             only_logged s s' /\ (v = false -> s' = s).
Proof.
  intros Hne (out_file & Hlook & Hnew).
  unfold should_skip_past_hour. rewrite Hlook.
  destruct frames as [|f fs]; [congruence |].
  unfold newest_mtime.
  destruct (last (f :: fs)) as [g|] eqn:Hlast.
  - simpl. assert (Hg : In g (f :: fs)).
    { apply list_elem_of_In. now apply last_Some_elem_of. }
    apply Hnew in Hg. rewrite Z.geb_leb.
    destruct (Z.leb_spec (snd g) (st_mtime out_file)); [| lia].
    unfold bind.
    destruct (eprint_if_only_logged v
                (LogSkipUpToDate (snd out_mp4) (st_mtime out_file) (snd g)) s)
      as (s' & Heq & Ho).
    rewrite Heq. exists s'. split; [reflexivity |]. split; [exact Ho |].
    intros ->. rewrite eprint_if_quiet in Heq. now inversion Heq.
  - apply last_None in Hlast. discriminate.
Qed.

(** What one call of build_hour_mp4 does, by the outcome of the encoder it
    would run. *)
Lemma build_hour_mp4_cases (env : Env) (out_mp4 : Path) (frames : list Frame) (cfg : Config)
    (s : State) :
  let proc :=
    encoder env (enc_calls s) (concat_lines env frames) (encoding cfg) (verbose cfg) in
  exists r s',
    build_hour_mp4 env out_mp4 frames cfg s = (r, s') /\
    tempdirs s' = tempdirs s /\ clock_reads s' = clock_reads s /\ logged_more s s' /\
    ((Z.of_nat (length frames) < min_frames cfg /\
      r = Ok tt /\ artifacts s' = artifacts s /\ enc_calls s' = enc_calls s) \/
     (min_frames cfg <= Z.of_nat (length frames) /\
      enc_calls s' = S (enc_calls s) /\
      match proc with
      | EncInterrupted => r = Raise KeyboardInterrupt /\ artifacts s' = artifacts s
      | EncExit returncode out err =>
          if returncode =? 0 then
            match out with
            | Some f => r = Ok tt /\ artifacts s' = <[out_mp4 := f]> (artifacts s)
            | None => r = Raise FileNotFoundError /\ artifacts s' = artifacts s
            end
          else r = Raise (RuntimeError returncode err) /\ artifacts s' = artifacts s
      end)).
Proof.
  intros proc. unfold build_hour_mp4.
  destruct (Z.ltb_spec (Z.of_nat (length frames)) (min_frames cfg)) as [Hfew | Hmany].
  - destruct (eprint_only_logged
                (LogSkipFewFrames (snd out_mp4) (length frames) (min_frames cfg)) s)
      as (s' & Heq & (A & T & E & C & L) & _).
    exists (Ok tt), s'. split; [exact Heq |]. repeat split; auto.
  - subst proc. unfold bind, with_TemporaryDirectory, write_concat_list,
      run_ffmpeg_concat, bind, eprint_if, copy2_tmp_mp4, read_manifest, store_tmp_mp4.
    destruct (verbose cfg); simpl;
      (destruct (encoder env (enc_calls s) (concat_lines env frames) (encoding cfg) _)
         as [returncode out err|]; simpl;
       [ destruct out as [f|]; destruct (returncode =? 0); simpl | ]);
      do 2 eexists; (split; [reflexivity |]); simpl;
      (split; [reflexivity |]); (split; [reflexivity |]);
      (split; [solve_logged |]);
      right; repeat split; auto.
Qed.

(** The try/except around build_hour_mp4: a normal return counts the hour, an
    Exception is logged and not counted, anything else propagates. *)
Lemma guarded_build_cases (env : Env) (cfg : Config) (out_name : string) (out_mp4 : Path)
    (frames : list Frame) (built : nat) (s : State) (r : Result unit) (s1 : State) :
  build_hour_mp4 env out_mp4 frames cfg s = (r, s1) ->
  exists s',
    try_except_Exception
      (build_hour_mp4 env out_mp4 frames cfg ;; ret (S built))
      (fun e => eprint (LogErrorBuilding out_name e) ;; ret built) s
    = (match r with
       | Ok _ => Ok (S built)
       | Raise e => if is_Exception e then Ok built else Raise e
       end, s') /\
    only_logged s1 s'.
Proof.
  intros Hb. unfold try_except_Exception, bind. rewrite Hb.
  destruct r as [[]|e]; cbv beta iota.
  - exists s1. split; [reflexivity | apply only_logged_refl].
  - destruct (is_Exception e).
    + destruct (eprint_only_logged (LogErrorBuilding out_name e) s1) as (s' & -> & Ho & _).
      exists s'. split; [reflexivity | exact Ho].
    + exists s1. split; [reflexivity | apply only_logged_refl].
Qed.

(** One iteration of the hour loop, by what the selection returned and what
    the skip test said. *)
Lemma hour_body_cases (env : Env) (cfg : Config) (ctx : DayCtx) (hour : Z) (built : nat)
    (s : State) :
  let out_name := out_name_of (camera ctx) hour in
  let out_mp4 : Path := (day_dir ctx, out_name) in
  match select_frames env ctx hour with
  | Raise e => hour_body env cfg ctx hour built s = (Raise e, s)
  | Ok frames =>
      (frames = [] /\
       exists s', hour_body env cfg ctx hour built s = (Ok built, s') /\ only_logged s s') \/
      (frames <> [] /\
       exists skip s0,
         only_logged s s0 /\
         (if is_current_hour ctx hour then skip = false
          else should_skip_past_hour out_mp4 frames (verbose cfg) s = (Ok skip, s0)) /\
         hour_body env cfg ctx hour built s =
         if (skip : bool) then (Ok built, s0)
         else
           try_except_Exception
             (build_hour_mp4 env out_mp4 frames cfg ;; ret (S built))
             (fun e => eprint (LogErrorBuilding out_name e) ;; ret built) s0)
  end.
Proof.
  intros out_name out_mp4. unfold hour_body. fold out_name. fold out_mp4.
  unfold bind at 1. unfold lift.
  destruct (select_frames env ctx hour) as [[|f fs]|e]; [| | reflexivity].
  - left. split; [reflexivity |]. unfold bind.
    destruct (eprint_if_only_logged (verbose cfg)
                (LogSkipNoFrames out_name (fst (hour_window (day_dt ctx) hour))
                   (window_end ctx hour)) s) as (s' & -> & Ho).
    exists s'. split; [reflexivity | exact Ho].
  - right. split; [discriminate |].
    destruct (is_current_hour ctx hour); simpl negb; cbv iota.
    + unfold bind.
      destruct (eprint_if_only_logged (verbose cfg)
                  (LogBuildCurrentHour out_name (window_end ctx hour)) s) as (s0 & -> & Ho).
      exists false, s0. unfold ret at 1. auto.
    + destruct (should_skip_past_hour_only_logged out_mp4 (f :: fs) (verbose cfg) s)
        as (skip & s0 & Heq & Ho).
      exists skip, s0. split; [exact Ho |]. split; [exact Heq |].
      unfold bind. rewrite Heq. destruct skip; reflexivity.
Qed.

(** ** The rebuild decision *)

Lemma up_to_date_only_logged (s s' : State) (out_mp4 : Path) (frames : list Frame) :
  only_logged s s' -> up_to_date s out_mp4 frames -> up_to_date s' out_mp4 frames.
Proof.
  intros (A & _) (out_file & Hlook & Hnew). exists out_file. rewrite A. auto.
Qed.

(** The selection of an hour is in chronological order, so its last frame is
    the newest one, as newest_mtime assumes. *)
Lemma select_frames_sorted (env : Env) (day : Z) (cam : string) (now_ : datetime)
    (hour : Z) (frames : list Frame) :
  select_frames env (day_ctx day cam now_) hour = Ok frames -> mtime_sorted frames.
Proof.
  intros Hsel. destruct (Z.eq_dec hour 0) as [-> | Hh].
  - rewrite select_frames_midnight in Hsel.
    destruct (list_jpgs_in_range env (day - 1, cam) _ _) as [a|] eqn:Ha; [| discriminate].
    destruct (list_jpgs_in_range env (day, cam) _ _) as [b|] eqn:Hb; [| discriminate].
    simpl in Hsel. inversion Hsel; subst frames.
    apply list_jpgs_in_range_sound in Ha as [Hsa Ha].
    apply list_jpgs_in_range_sound in Hb as [Hsb Hb].
    apply (mtime_sorted_app a b (at_time day 0 0 0)); auto.
    + intros f Hf. apply Ha in Hf. lia.
    + intros g Hg. apply Hb in Hg. lia.
  - rewrite select_frames_later_hour in Hsel by assumption.
    now apply list_jpgs_in_range_sound in Hsel as [Hs _].
Qed.

Lemma newest_mtime_newest (frames : list Frame) (t : Z) (f : Frame) :
  mtime_sorted frames -> newest_mtime frames = Some t -> In f frames -> snd f <= t.
Proof.
  intros Hs Hn Hin. destruct frames as [|a l]; [inversion Hin |].
  unfold newest_mtime in Hn.
  destruct (last (a :: l)) as [g|] eqn:Hlast; [| discriminate].
  simpl in Hn. inversion Hn; subst t.
  eapply mtime_sorted_last; eassumption.
Qed.


(** A past hour with frames and an up-to-date artifact is skipped. *)
Lemma hour_body_up_to_date (env : Env) (cfg : Config) (ctx : DayCtx) (hour : Z)
    (built : nat) (s : State) (frames : list Frame) :
  is_current_hour ctx hour = false ->
  select_frames env ctx hour = Ok frames -> frames <> [] ->
  up_to_date s (day_dir ctx, out_name_of (camera ctx) hour) frames ->
  exists s',
    hour_body env cfg ctx hour built s = (Ok built, s') /\
    only_logged s s' /\ (verbose cfg = false -> s' = s).
Proof.
  intros Hcur Hsel Hne Hup.
  pose proof (hour_body_cases env cfg ctx hour built s) as H.
  cbv zeta in H. rewrite Hsel, Hcur in H.
  destruct H as [[Hnil _] | (_ & skip & s0 & Ho & Hskip & Hbody)]; [contradiction |].
  destruct (should_skip_past_hour_up_to_date _ frames (verbose cfg) s Hne Hup)
    as (s' & Heq & Ho' & Hquiet).
  rewrite Heq in Hskip. inversion Hskip; subst skip s0.
  exists s'. auto.
Qed.

(** A run of past hours, each without frames or up to date, builds nothing. *)
Lemma for_hours_all_skipped (env : Env) (cfg : Config) (ctx : DayCtx) (hours : list Z) :
  forall (built : nat) (s : State),
    (forall hour, In hour hours ->
       is_current_hour ctx hour = false /\
       exists frames,
         select_frames env ctx hour = Ok frames /\
         (frames <> [] ->
          up_to_date s (day_dir ctx, out_name_of (camera ctx) hour) frames)) ->
    exists s',
      for_hours (hour_body env cfg ctx) hours built s = (Ok built, s') /\ only_logged s s'.
Proof.
  induction hours as [|hour rest IH]; intros built s Hall.
  - exists s. split; [reflexivity | apply only_logged_refl].
  - destruct (Hall hour (or_introl eq_refl)) as (Hcur & frames & Hsel & Hup).
    assert (Hstep : exists s1,
               hour_body env cfg ctx hour built s = (Ok built, s1) /\ only_logged s s1).
    { destruct frames as [|f fs].
      - pose proof (hour_body_cases env cfg ctx hour built s) as H.
        cbv zeta in H. rewrite Hsel in H.
        destruct H as [(_ & s1 & Heq & Ho) | (Hne & _)]; [eauto | congruence].
      - destruct (hour_body_up_to_date env cfg ctx hour built s (f :: fs) Hcur Hsel)
          as (s1 & Heq & Ho & _); [discriminate | apply Hup; discriminate | eauto]. }
    destruct Hstep as (s1 & Heq & Ho1).
    destruct (IH built s1) as (s' & Heq' & Ho').
    { intros h Hh. destruct (Hall h (or_intror Hh)) as (Hc & fr & Hs & Hu).
      split; [exact Hc |]. exists fr. split; [exact Hs |].
      intros Hne. eapply up_to_date_only_logged; eauto. }
    exists s'. split; [| eapply only_logged_trans; eassumption].
    simpl. unfold bind. rewrite Heq. exact Heq'.
Qed.

(** C1: a past hour whose frame list is not empty and whose artifact exists
    with a modification time at least that of the newest selected frame is
    skipped: the encoder is not run and the artifact is not rewritten; and a
    run over a past day all of whose hours are in that state (or have no
    frames) does no encoding work. *)
Theorem C1_skip_up_to_date (env : Env) (cfg : Config) :
  (forall ctx hour built s frames,
     is_current_hour ctx hour = false ->
     select_frames env ctx hour = Ok frames -> frames <> [] ->
     up_to_date s (day_dir ctx, out_name_of (camera ctx) hour) frames ->
     exists s',
       hour_body env cfg ctx hour built s = (Ok built, s') /\
       artifacts s' = artifacts s /\ enc_calls s' = enc_calls s /\
       tempdirs s' = tempdirs s /\ (verbose cfg = false -> s' = s)) /\
  (forall day cam s,
     date_of (clock env (clock_reads s)) <> day ->
     (forall hour, 0 <= hour <= 23 ->
        exists frames,
          select_frames env (day_ctx day cam (clock env (clock_reads s))) hour
            = Ok frames /\
          (frames <> [] -> up_to_date s ((day, cam), out_name_of cam hour) frames)) ->
     exists s',
       build_for_camera_day env cfg day cam s = (Ok 0%nat, s') /\
       artifacts s' = artifacts s /\ enc_calls s' = enc_calls s /\
       tempdirs s' = tempdirs s).
Proof.
  split.
  - intros ctx hour built s frames Hcur Hsel Hne Hup.
    destruct (hour_body_up_to_date env cfg ctx hour built s frames Hcur Hsel Hne Hup)
      as (s' & Heq & (A & T & E & _) & Hquiet).
    exists s'. auto.
  - intros day cam s Hday Hall. unfold build_for_camera_day.
    destruct (dir_exists env (day, cam)); cbn [negb].
    + unfold bind at 1. unfold datetime_now.
      set (now_ := clock env (clock_reads s)) in *.
      set (s1 := set_clock_reads S s).
      assert (Htoday : is_today (day_ctx day cam now_) = false).
      { simpl. unfold yyyymmdd_to_date. rewrite date_of_day.
        apply Z.eqb_neq. congruence. }
      assert (Hhours : current_hour (day_ctx day cam now_) = 23).
      { unfold day_ctx in *. simpl in *. now rewrite Htoday. }
      rewrite Hhours.
      destruct (for_hours_all_skipped env cfg (day_ctx day cam now_) (range0 (23 + 1))
                  0%nat s1) as (s' & Heq & (A & T & E & _)).
      { intros hour Hin. apply list_elem_of_In, elem_of_seqZ in Hin.
        split; [unfold is_current_hour; now rewrite Htoday |].
        destruct (Hall hour) as (frames & Hsel & Hup); [lia |].
        exists frames. split; [exact Hsel |]. intros Hne.
        destruct (Hup Hne) as (out_file & Hlook & Hnew). exists out_file. auto. }
      exists s'. split; [exact Heq |]. auto.
    + unfold bind.
      destruct (eprint_only_logged (LogMissingCameraDir (day, cam)) s)
        as (s' & -> & (A & T & E & _) & _).
      exists s'. auto.
Qed.

Lemma C1_skip_up_to_date_witness :
  (exists s',
     hour_body mixed_env (sample_cfg 2) (day_ctx 100 "driveway" (at_time 200 0 0 0)) 3
       0%nat built_state = (Ok 0%nat, s') /\
     artifacts s' = artifacts built_state /\ enc_calls s' = enc_calls built_state /\
     tempdirs s' = tempdirs built_state /\
     (verbose (sample_cfg 2) = false -> s' = built_state)) /\
  (exists s',
     build_for_camera_day mixed_env (sample_cfg 2) 100 "driveway" built_state
       = (Ok 0%nat, s') /\
     artifacts s' = artifacts built_state /\ enc_calls s' = enc_calls built_state /\
     tempdirs s' = tempdirs built_state).
Proof.
  split.
  - apply (proj1 (C1_skip_up_to_date mixed_env (sample_cfg 2))
             (day_ctx 100 "driveway" (at_time 200 0 0 0)) 3 0%nat built_state
             [((driveway 100, "early.jpeg"), at_time 100 3 0 0);
              ((driveway 100, "late.jpg"), at_time 100 3 59 59);
              ((driveway 100, "overlap.JPG"), at_time 100 4 4 59)]).
    + reflexivity.
    + vm_compute. reflexivity.
    + discriminate.
    + sample_up_to_date.
  - apply (proj2 (C1_skip_up_to_date mixed_env (sample_cfg 2)) 100 "driveway" built_state).
    + vm_compute. intro. discriminate.
    + intros hour Hh.
      assert (Hcases : In hour (seqZ 0 24)) by (apply list_elem_of_In, elem_of_seqZ; lia).
      vm_compute in Hcases.
      repeat (destruct Hcases as [<- | Hcases]); try contradiction; sample_hour.
Defined.

(** ** The frame threshold *)



(** ** The hour in progress *)





(** ** Publishing *)

(** C6: in an hour build the final path changes only through the copy into
    place, and only after the encoder has exited with status 0; when the
    encoder fails or the wait is interrupted every artifact is as before the
    run; no other path is written; and the temporary work area, with the
    manifest, is gone on every exit, successful or not. *)
Theorem C6_publish_after_success (env : Env) (out_mp4 : Path) (frames : list Frame)
    (cfg : Config) (s : State) :
  let proc :=
    encoder env (enc_calls s) (concat_lines env frames) (encoding cfg) (verbose cfg) in
  let r := fst (build_hour_mp4 env out_mp4 frames cfg s) in
  let s' := snd (build_hour_mp4 env out_mp4 frames cfg s) in
  tempdirs s' = tempdirs s /\
  (forall p, p <> out_mp4 -> artifacts s' !! p = artifacts s !! p) /\
  (artifacts s' <> artifacts s ->
   exists f err,
     proc = EncExit 0 (Some f) err /\ r = Ok tt /\
     artifacts s' = <[out_mp4 := f]> (artifacts s)) /\
  (proc = EncInterrupted \/
   (exists returncode out err, proc = EncExit returncode out err /\ returncode <> 0) ->
   artifacts s' = artifacts s /\
   (min_frames cfg <= Z.of_nat (length frames) -> exists e, r = Raise e)).
Proof.
  intros proc r s'. subst r s'.
  destruct (build_hour_mp4_cases env out_mp4 frames cfg s)
    as (r & s' & Hb & T & _ & _ & Hcases).
  rewrite Hb. cbn [fst snd]. fold proc in Hcases.
  split; [exact T |].
  destruct Hcases as [(Hfew & -> & A & _) | (Hmany & _ & Hproc)].
  - split; [intros p _; now rewrite A |]. split; [intros Hchg; contradiction |].
    intros _. split; [exact A | lia].
  - destruct proc as [returncode out err|].
    + destruct (Z.eqb_spec returncode 0) as [-> | Hcode].
      * destruct out as [f|]; destruct Hproc as [-> A].
        -- split; [intros p Hp; rewrite A; now apply lookup_insert_ne |].
           split; [intros _; exists f, err; auto |].
           intros [Hint | (rc & o & e & Heq & Hrc)]; [discriminate |].
           inversion Heq; subst. contradiction.
        -- split; [intros p _; now rewrite A |].
           split; [intros Hchg; contradiction |].
           intros _. split; [exact A | eauto].
      * destruct Hproc as [-> A].
        split; [intros p _; now rewrite A |]. split; [intros Hchg; contradiction |].
        intros _. split; [exact A | eauto].
    + destruct Hproc as [-> A].
      split; [intros p _; now rewrite A |]. split; [intros Hchg; contradiction |].
      intros _. split; [exact A | eauto].
Qed.

Lemma C6_publish_after_success_witness :
  artifacts
    (snd (build_hour_mp4 flaky_env (driveway 100, "driveway-0300.mp4")
            [((driveway 100, "early.jpeg"), at_time 100 3 0 0);
             ((driveway 100, "late.jpg"), at_time 100 3 59 59);
             ((driveway 100, "overlap.JPG"), at_time 100 4 4 59)]
            (sample_cfg 3) stale_state)) = artifacts stale_state /\
  exists e,
    fst (build_hour_mp4 flaky_env (driveway 100, "driveway-0300.mp4")
           [((driveway 100, "early.jpeg"), at_time 100 3 0 0);
            ((driveway 100, "late.jpg"), at_time 100 3 59 59);
            ((driveway 100, "overlap.JPG"), at_time 100 4 4 59)]
           (sample_cfg 3) stale_state) = Raise e.
Proof.
  destruct (proj2 (proj2 (proj2
              (C6_publish_after_success flaky_env (driveway 100, "driveway-0300.mp4")
                 [((driveway 100, "early.jpeg"), at_time 100 3 0 0);
                  ((driveway 100, "late.jpg"), at_time 100 3 59 59);
                  ((driveway 100, "overlap.JPG"), at_time 100 4 4 59)]
                 (sample_cfg 3) stale_state)))) as [Hsame Hraise].
  - right. exists (-9), (Some (video (at_time 200 0 0 1))), "killed".
    split; [reflexivity | discriminate].
  - split; [exact Hsame |]. apply Hraise. vm_compute. discriminate.
Defined.

(** A killed encoder leaves the stale artifact; the next run replaces it. *)
Example build_hour_mp4_flaky :
  let out_mp4 : Path := (driveway 100, "driveway-0300.mp4") in
  let frames :=
    [((driveway 100, "early.jpeg"), at_time 100 3 0 0);
     ((driveway 100, "late.jpg"), at_time 100 3 59 59);
     ((driveway 100, "overlap.JPG"), at_time 100 4 4 59)] in
  let '(r1, s1) := build_hour_mp4 flaky_env out_mp4 frames (sample_cfg 3) stale_state in
  let '(r2, s2) := build_hour_mp4 flaky_env out_mp4 frames (sample_cfg 3) s1 in
  r1 = Raise (RuntimeError (-9) "killed") /\
  artifacts s1 !! out_mp4 = Some (video (at_time 100 3 5 0)) /\ tempdirs s1 = [] /\
  r2 = Ok tt /\
  artifacts s2 !! out_mp4 = Some (video (at_time 200 0 0 2)) /\ tempdirs s2 = [].
Proof. vm_compute. repeat split; reflexivity. Qed.

(** ** Failure isolation *)






(** With the flaky encoder the failed hour is logged and the run goes on to
    the later hours and to its summary. *)
Example main_flaky :
  let '(r, s') := main flaky_env (sample_ns 2) empty_state in
  r = Ok 0 /\
  stderr s' =
    [LogCamera "driveway" 100;
     LogErrorBuilding "driveway-0200.mp4" (RuntimeError (-9) "killed");
     LogOk (driveway 100, "driveway-0300.mp4") 3;
     LogOk (driveway 100, "driveway-0400.mp4") 2;
     LogDone 2] /\
  enc_calls s' = 3%nat /\
  artifacts s' !! (driveway 100, "driveway-0200.mp4") = None /\
  artifacts s' !! (driveway 100, "driveway-0300.mp4") = Some (video (at_time 200 0 0 2)) /\
  artifacts s' !! (driveway 100, "driveway-0400.mp4") = Some (video (at_time 200 0 0 2)).
Proof. vm_compute. repeat split; reflexivity. Qed.

(** ** The count of built artifacts *)

(** C9 fails on the code: on a past day whose only frame falls in hour 3,
    with the default minimum of 30 frames, build_hour_mp4 returns from its
    too-few-frames branch without raising, the caller counts the hour, and
    the summary reports one file although the encoder never ran and no
    artifact exists. *)
Theorem C9_skipped_hour_is_counted :
  select_frames one_frame_env (day_ctx 100 "driveway" (at_time 200 0 0 0)) 3
    = Ok [((driveway 100, "only.jpg"), at_time 100 3 10 0)] /\
  fst (build_for_camera_day one_frame_env (sample_cfg MIN_FRAMES_DEFAULT) 100 "driveway"
         empty_state) = Ok 1%nat /\
  fst (main one_frame_env (sample_ns MIN_FRAMES_DEFAULT) empty_state) = Ok 0 /\
  stderr (snd (main one_frame_env (sample_ns MIN_FRAMES_DEFAULT) empty_state))
    = [LogCamera "driveway" 100; LogSkipFewFrames "driveway-0300.mp4" 1 30; LogDone 1] /\
  enc_calls (snd (main one_frame_env (sample_ns MIN_FRAMES_DEFAULT) empty_state)) = 0%nat /\
  map_to_list (artifacts (snd (main one_frame_env (sample_ns MIN_FRAMES_DEFAULT) empty_state)))
    = [].
Proof. vm_compute. repeat split; reflexivity. Qed.

(** * Further properties of the builder *)

(** ** Hour windows *)

(** As naive local datetimes, the pairs hour_window returns before any
    conversion to a time stamp: two windows of one day share an instant only
    when their hours are consecutive, and then only in the first five
    minutes of the later hour. *)
Theorem hour_windows_cover_and_overlap (day h1 h2 : Z) (t : datetime) :
  0 <= h1 < h2 -> h2 <= 23 ->
  fst (hour_window (yyyymmdd_to_date day) h1) <= t
    < snd (hour_window (yyyymmdd_to_date day) h1) ->
  fst (hour_window (yyyymmdd_to_date day) h2) <= t
    < snd (hour_window (yyyymmdd_to_date day) h2) ->
  h2 = h1 + 1 /\ at_time day h2 0 0 <= t < at_time day h2 5 0 /\
  date_of t = day /\ hour_of t = h2.
Proof.
  intros Hh Hh2. rewrite !hour_window_day. cbn [fst snd]. intros H1 H2.
  unfold date_of, hour_of. time_numerals.
  assert (h2 = h1 + 1) by lia. subst h2.
  split; [reflexivity |]. split; [lia |].
  assert (Hd : t / 86400000000 = day).
  { symmetry. apply (Z.div_unique t 86400000000 day (t - day * 86400000000)); lia. }
  split; [exact Hd |].
  rewrite Z.mod_eq by lia. rewrite Hd.
  symmetry. apply (Z.div_unique _ 3600000000 (h1 + 1)
                     (t - 86400000000 * day - (h1 + 1) * 3600000000)); lia.
Qed.

Lemma hour_windows_cover_and_overlap_witness :
  4 = 3 + 1 /\ at_time 100 4 0 0 <= at_time 100 4 4 59 < at_time 100 4 5 0 /\
  date_of (at_time 100 4 4 59) = 100 /\ hour_of (at_time 100 4 4 59) = 4.
Proof.
  apply (hour_windows_cover_and_overlap 100 3 4 (at_time 100 4 4 59));
    first [ lia | vm_compute; split; [intro; discriminate | reflexivity] ].
Defined.

(** The window of an instant's own hour contains it: no frame of a day falls
    between two hour windows. *)
Theorem hour_window_of_instant (t : datetime) :
  0 <= hour_of t <= 23 /\
  fst (hour_window (yyyymmdd_to_date (date_of t)) (hour_of t)) <= t
    < snd (hour_window (yyyymmdd_to_date (date_of t)) (hour_of t)).
Proof.
  rewrite hour_window_day. cbn [fst snd]. unfold date_of, hour_of. time_numerals.
  pose proof (Z.div_mod t 86400000000 ltac:(lia)) as Hd.
  pose proof (Z.mod_pos_bound t 86400000000 ltac:(lia)) as Hb.
  pose proof (Z.div_mod (t mod 86400000000) 3600000000 ltac:(lia)) as Hh.
  pose proof (Z.mod_pos_bound (t mod 86400000000) 3600000000 ltac:(lia)) as Hhb.
  assert (0 <= t mod 86400000000 / 3600000000 <= 23).
  { split; [apply Z.div_pos; lia |].
    apply Z.lt_succ_r. apply Z.div_lt_upper_bound; lia. }
  lia.
Qed.

(** ** Artifact names *)

Lemma string_app_assoc (a b c : string) : a +:+ (b +:+ c) = (a +:+ b) +:+ c.
Proof.
  induction a as [|x a IH]; [reflexivity |].
  rewrite !append_cons. now rewrite IH.
Qed.

Lemma substring_app_skip (a b : string) (n m : nat) :
  substring (String.length a + n) m (a +:+ b) = substring n m b.
Proof.
  induction a as [|x a IH]; [reflexivity |].
  rewrite append_cons. simpl. exact IH.
Qed.

(** A suffix no longer than the tail of a name is tested on the tail alone. *)
Lemma endswith_app (a b suffix : string) :
  (String.length suffix <= String.length b)%nat ->
  endswith (a +:+ b) suffix = endswith b suffix.
Proof.
  intros Hlen. unfold endswith. rewrite string_length_app.
  replace (String.length a + String.length b - String.length suffix)%nat
    with (String.length a + (String.length b - String.length suffix))%nat by lia.
  rewrite substring_app_skip.
  destruct (Nat.leb_spec (String.length suffix) (String.length b)); [| lia].
  destruct (Nat.leb_spec (String.length suffix) (String.length a + String.length b));
    [reflexivity | lia].
Qed.

Lemma out_name_of_tail (cam : string) (hour : Z) :
  out_name_of cam hour = (cam +:+ "-" +:+ fmt02 hour) +:+ "00.mp4".
Proof. unfold out_name_of. now rewrite !string_app_assoc. Qed.

(** The name of an artifact never ends in a JPEG suffix, so the videos the
    builder writes into a camera-day directory are never selected as frames:
    a listing with such an entry selects what the listing without it does. *)
Theorem artifacts_are_never_frames (env env' : Env) (d : Dir) (start_dt end_dt : datetime)
    (cam : string) (hour : Z) (pre post : list DirEntry) (artifact : DirEntry) :
  e_name artifact = out_name_of cam hour ->
  dir_exists env d = true -> scandir env d = Ok (pre ++ artifact :: post) ->
  dir_exists env' d = true -> scandir env' d = Ok (pre ++ post) ->
  endswith_any (out_name_of cam hour) JPEG_EXTS = false /\
  list_jpgs_in_range env d start_dt end_dt = list_jpgs_in_range env' d start_dt end_dt.
Proof.
  intros Hname Hex Hscan Hex' Hscan'.
  assert (Hnot : endswith_any (out_name_of cam hour) JPEG_EXTS = false).
  { unfold endswith_any, JPEG_EXTS. rewrite out_name_of_tail. cbn [existsb].
    rewrite !endswith_app by (simpl; lia). reflexivity. }
  split; [exact Hnot |].
  rewrite (list_jpgs_in_range_listed env d _ _ _ Hex Hscan).
  rewrite (list_jpgs_in_range_listed env' d _ _ _ Hex' Hscan').
  unfold frames_in_window. rewrite !omap_app. simpl.
  unfold frame_of_entry at 2. rewrite Hname, Hnot, andb_false_r. reflexivity.
Qed.

Lemma string_app_inj_r (c : string) (a : string) : forall b,
  a +:+ c = b +:+ c -> a = b.
Proof.
  induction a as [|x a IH]; intros [|y b] Heq.
  - reflexivity.
  - exfalso. apply (f_equal String.length) in Heq.
    rewrite !string_length_app in Heq. simpl in Heq. lia.
  - exfalso. apply (f_equal String.length) in Heq.
    rewrite !string_length_app in Heq. simpl in Heq. lia.
  - rewrite !append_cons in Heq. inversion Heq. f_equal. now apply IH.
Qed.

Lemma fmt02_inj (h1 h2 : Z) :
  0 <= h1 < 100 -> 0 <= h2 < 100 -> fmt02 h1 = fmt02 h2 -> h1 = h2.
Proof.
  intros H1 H2 Heq. unfold fmt02 in Heq. inversion Heq as [[Ht Hu]].
  assert (Hbound : forall h, 0 <= h < 100 ->
            (48 + Z.to_nat (h / 10) < 256)%nat /\ (48 + Z.to_nat (h mod 10) < 256)%nat).
  { intros h Hh.
    pose proof (Z.div_lt_upper_bound h 10 10 ltac:(lia) ltac:(lia)).
    pose proof (Z.div_pos h 10 ltac:(lia) ltac:(lia)).
    pose proof (Z.mod_pos_bound h 10 ltac:(lia)). lia. }
  destruct (Hbound h1 H1) as [Ba1 Bb1]. destruct (Hbound h2 H2) as [Ba2 Bb2].
  apply (f_equal nat_of_ascii) in Ht. apply (f_equal nat_of_ascii) in Hu.
  rewrite !nat_ascii_embedding in Ht, Hu by assumption.
  pose proof (Z.div_mod h1 10 ltac:(lia)). pose proof (Z.div_mod h2 10 ltac:(lia)).
  pose proof (Z.div_pos h1 10 ltac:(lia) ltac:(lia)).
  pose proof (Z.div_pos h2 10 ltac:(lia) ltac:(lia)).
  pose proof (Z.mod_pos_bound h1 10 ltac:(lia)).
  pose proof (Z.mod_pos_bound h2 10 ltac:(lia)).
  lia.
Qed.

Lemma out_name_of_eq_hour (cam : string) (h1 h2 : Z) :
  0 <= h1 <= 23 -> 0 <= h2 <= 23 -> out_name_of cam h1 = out_name_of cam h2 -> h1 = h2.
Proof.
  intros H1 H2 Heq. unfold out_name_of in Heq.
  apply (String.app_inj cam) in Heq. apply (String.app_inj "-") in Heq.
  apply string_app_inj_r in Heq.
  apply (fmt02_inj h1 h2); [lia | lia | exact Heq].
Qed.

(** Within a camera-day distinct hours have distinct artifact names: two
    iterations of the hour loop never write the same file. *)
Theorem out_name_of_inj (cam : string) (h1 h2 : Z) :
  0 <= h1 <= 23 -> 0 <= h2 <= 23 -> h1 <> h2 ->
  out_name_of cam h1 <> out_name_of cam h2.
Proof.
  intros H1 H2 Hne Heq. apply Hne. now apply (out_name_of_eq_hour cam).
Qed.

Lemma out_name_of_inj_witness :
  out_name_of "driveway" 3 <> out_name_of "driveway" 13.
Proof.
  apply (out_name_of_inj "driveway" 3 13); lia.
Defined.

Lemma artifacts_are_never_frames_witness :
  endswith_any (out_name_of "driveway" 3) JPEG_EXTS = false /\
  list_jpgs_in_range
    (sample_env
       [(driveway 100,
         Ok ([jpg "a.jpg" (at_time 100 3 1 0)] ++
             jpg (out_name_of "driveway" 3) (at_time 100 3 2 0) ::
             [jpg "b.jpg" (at_time 100 3 3 0)]))]
       (fun _ => EncInterrupted) 0)
    (driveway 100) (at_time 100 3 0 0) (at_time 100 4 5 0)
  = list_jpgs_in_range
      (sample_env
         [(driveway 100,
           Ok ([jpg "a.jpg" (at_time 100 3 1 0)] ++ [jpg "b.jpg" (at_time 100 3 3 0)]))]
         (fun _ => EncInterrupted) 0)
      (driveway 100) (at_time 100 3 0 0) (at_time 100 4 5 0).
Proof.
  apply (artifacts_are_never_frames _ _ (driveway 100) (at_time 100 3 0 0)
           (at_time 100 4 5 0) "driveway" 3 [jpg "a.jpg" (at_time 100 3 1 0)]
           [jpg "b.jpg" (at_time 100 3 3 0)]
           (jpg (out_name_of "driveway" 3) (at_time 100 3 2 0))); reflexivity.
Defined.

(** ** The manifest *)






(** The quoting on a sample path. *)
Example concat_lines_quote :
  concat_lines mixed_env [((driveway 100, "it's.jpg"), 5)]
  = ["file '/archive/driveway/it'\''s.jpg'"].
Proof. reflexivity. Qed.

(** ** Order of the selected frames *)

Lemma insert_by_mtime_filter (P : Frame -> bool) (t : Z) (f : Frame) (l : list Frame) :
  (forall g, P g = true -> snd g = t) ->
  List.filter P (insert_by_mtime f l) = List.filter P (f :: l).
Proof.
  intros HP. induction l as [|g l IH]; [reflexivity |].
  simpl insert_by_mtime.
  destruct (Z.leb_spec (snd f) (snd g)) as [Hle | Hgt]; [reflexivity |].
  simpl. simpl in IH. rewrite IH.
  destruct (P f) eqn:Hf, (P g) eqn:Hg; try reflexivity.
  apply HP in Hf. apply HP in Hg. lia.
Qed.

Lemma sort_by_mtime_filter (P : Frame -> bool) (t : Z) (l : list Frame) :
  (forall g, P g = true -> snd g = t) ->
  List.filter P (sort_by_mtime l) = List.filter P l.
Proof.
  intros HP. induction l as [|f l IH]; [reflexivity |].
  simpl sort_by_mtime. rewrite (insert_by_mtime_filter P t) by auto.
  simpl. now rewrite IH.
Qed.

(** Frames with the same modification time come out of the selector in the
    order in which the directory listing enumerated them. *)
Theorem equal_mtimes_keep_listing_order (env : Env) (d : Dir) (start_dt end_dt : datetime)
    (entries : list DirEntry) (t : Z) :
  dir_exists env d = true -> scandir env d = Ok entries ->
  exists frames,
    list_jpgs_in_range env d start_dt end_dt = Ok frames /\
    List.filter (fun f => snd f =? t) frames =
    List.filter (fun f => snd f =? t) (frames_in_window d start_dt end_dt entries).
Proof.
  intros Hex Hscan.
  exists (sort_by_mtime (frames_in_window d start_dt end_dt entries)).
  split; [exact (list_jpgs_in_range_listed env d _ _ entries Hex Hscan) |].
  apply (sort_by_mtime_filter _ t). intros g Hg. now apply Z.eqb_eq in Hg.
Qed.

Lemma equal_mtimes_keep_listing_order_witness :
  exists frames,
    list_jpgs_in_range
      (sample_env
         [(driveway 100,
           Ok [jpg "z.jpg" (at_time 100 3 1 0); jpg "m.jpg" (at_time 100 3 0 30);
               jpg "a.jpg" (at_time 100 3 1 0)])]
         (fun _ => EncInterrupted) 0)
      (driveway 100) (at_time 100 3 0 0) (at_time 100 4 5 0) = Ok frames /\
    List.filter (fun f => snd f =? at_time 100 3 1 0) frames =
    List.filter (fun f => snd f =? at_time 100 3 1 0)
      (frames_in_window (driveway 100) (at_time 100 3 0 0) (at_time 100 4 5 0)
         [jpg "z.jpg" (at_time 100 3 1 0); jpg "m.jpg" (at_time 100 3 0 30);
          jpg "a.jpg" (at_time 100 3 1 0)]).
Proof.
  apply (equal_mtimes_keep_listing_order _ (driveway 100)); reflexivity.
Defined.

Example list_jpgs_in_range_ties :
  list_jpgs_in_range
    (sample_env
       [(driveway 100,
         Ok [jpg "z.jpg" (at_time 100 3 1 0); jpg "m.jpg" (at_time 100 3 0 30);
             jpg "a.jpg" (at_time 100 3 1 0)])]
       (fun _ => EncInterrupted) 0)
    (driveway 100) (at_time 100 3 0 0) (at_time 100 4 5 0)
  = Ok [((driveway 100, "m.jpg"), at_time 100 3 0 30);
        ((driveway 100, "z.jpg"), at_time 100 3 1 0);
        ((driveway 100, "a.jpg"), at_time 100 3 1 0)].
Proof. vm_compute. reflexivity. Qed.




(** ** The rebuild decision, exactly *)

(** On the frames selected for an hour, newest_mtime is the time of a frame
    of the list that no frame of the list exceeds; this covers hour 0, whose
    list is two sorted runs put end to end. *)
Theorem newest_mtime_of_selection (env : Env) (day : Z) (cam : string) (now_ : datetime)
    (hour : Z) (frames : list Frame) :
  select_frames env (day_ctx day cam now_) hour = Ok frames -> frames <> [] ->
  exists f,
    In f frames /\ newest_mtime frames = Some (snd f) /\
    forall g, In g frames -> snd g <= snd f.
Proof.
  intros Hsel Hne. apply select_frames_sorted in Hsel.
  destruct frames as [|a l]; [congruence |].
  destruct (last (a :: l)) as [f|] eqn:Hlast;
    [| apply last_None in Hlast; discriminate].
  exists f. split; [apply list_elem_of_In; now apply last_Some_elem_of |].
  assert (Hn : newest_mtime (a :: l) = Some (snd f)).
  { unfold newest_mtime. now rewrite Hlast. }
  split; [exact Hn |].
  intros g Hg. eapply newest_mtime_newest; eassumption.
Qed.

Lemma newest_mtime_of_selection_witness :
  exists f,
    In f [((driveway 99, "p2.jpg"), at_time 99 23 56 0);
          ((driveway 100, "c1.jpg"), at_time 100 0 0 1);
          ((driveway 100, "c2.jpg"), at_time 100 1 4 59)] /\
    newest_mtime [((driveway 99, "p2.jpg"), at_time 99 23 56 0);
                  ((driveway 100, "c1.jpg"), at_time 100 0 0 1);
                  ((driveway 100, "c2.jpg"), at_time 100 1 4 59)] = Some (snd f) /\
    forall g,
      In g [((driveway 99, "p2.jpg"), at_time 99 23 56 0);
            ((driveway 100, "c1.jpg"), at_time 100 0 0 1);
            ((driveway 100, "c2.jpg"), at_time 100 1 4 59)] -> snd g <= snd f.
Proof.
  apply (newest_mtime_of_selection midnight_env 100 "driveway" (at_time 200 0 0 0) 0).
  - vm_compute. reflexivity.
  - discriminate.
Defined.



(** ** What a run touches *)

Lemma build_hour_mp4_effects (env : Env) (out_mp4 : Path) (frames : list Frame)
    (cfg : Config) (s : State) :
  exists r s',
    build_hour_mp4 env out_mp4 frames cfg s = (r, s') /\
    tempdirs s' = tempdirs s /\ clock_reads s' = clock_reads s /\ logged_more s s' /\
    (forall p : Path, p <> out_mp4 -> artifacts s' !! p = artifacts s !! p) /\
    (enc_calls s <= enc_calls s' <= S (enc_calls s))%nat.
Proof.
  destruct (build_hour_mp4_cases env out_mp4 frames cfg s)
    as (r & s' & Hb & T & C & L & Hcases).
  exists r, s'. split; [exact Hb |]. split; [exact T |]. split; [exact C |].
  split; [exact L |].
  destruct Hcases as [(_ & _ & A & E) | (_ & E & Hproc)].
  - split; [intros p _; now rewrite A | lia].
  - split; [| lia].
    destruct (encoder env (enc_calls s) (concat_lines env frames) (encoding cfg)
                (verbose cfg)) as [returncode out err|].
    + destruct (returncode =? 0); [destruct out as [f|] |]; destruct Hproc as [_ A];
        intros p Hp; rewrite A; [now apply lookup_insert_ne | reflexivity | reflexivity].
    + destruct Hproc as [_ A]. intros p _. now rewrite A.
Qed.

(** One iteration of the hour loop, whatever its outcome. *)
Lemma hour_body_effects (env : Env) (cfg : Config) (ctx : DayCtx) (hour : Z) (built : nat)
    (s : State) :
  exists r s',
    hour_body env cfg ctx hour built s = (r, s') /\
    tempdirs s' = tempdirs s /\ clock_reads s' = clock_reads s /\ logged_more s s' /\
    (forall p : Path,
       p <> (day_dir ctx, out_name_of (camera ctx) hour) ->
       artifacts s' !! p = artifacts s !! p) /\
    (enc_calls s <= enc_calls s' <= S (enc_calls s))%nat /\
    (forall n, r = Ok n -> (built <= n <= S built)%nat).
Proof.
  pose proof (hour_body_cases env cfg ctx hour built s) as H. cbv zeta in H.
  destruct (select_frames env ctx hour) as [frames | e].
  - destruct H as [(_ & s' & Heq & (A & T & E & C & L)) |
                   (_ & skip & s0 & (A0 & T0 & E0 & C0 & L0) & _ & Hbody)].
    + exists (Ok built), s'. split; [exact Heq |]. repeat split; auto; try lia.
      * intros p _. now rewrite A.
      * inversion H. lia.
      * inversion H. lia.
    + destruct skip.
      * exists (Ok built), s0. split; [exact Hbody |]. repeat split; auto; try lia.
        -- intros p _. now rewrite A0.
        -- inversion H. lia.
        -- inversion H. lia.
      * destruct (build_hour_mp4_effects env (day_dir ctx, out_name_of (camera ctx) hour)
                    frames cfg s0) as (r & s1 & Hb & T1 & C1 & L1 & A1 & E1).
        destruct (guarded_build_cases env cfg (out_name_of (camera ctx) hour) _ frames
                    built s0 r s1 Hb) as (s' & Hg & (A' & T' & E' & C' & L')).
        rewrite Hg in Hbody. eexists _, s'. split; [exact Hbody |].
        split; [congruence |]. split; [congruence |].
        split; [eapply logged_more_trans; [exact L0 |];
                eapply logged_more_trans; eassumption |].
        split; [intros p Hp; rewrite A', (A1 p Hp), A0; reflexivity |].
        split; [lia |].
        intros n Hn. destruct r as [[]|e]; [inversion Hn; lia |].
        destruct (is_Exception e); inversion Hn. lia.
  - exists (Raise e), s. split; [exact H |]. repeat split; auto; try lia.
    + apply logged_more_refl.
    + discriminate.
    + discriminate.
Qed.

Lemma for_hours_effects (env : Env) (cfg : Config) (ctx : DayCtx) (hours : list Z) :
  forall (built : nat) (s : State),
  exists r s',
    for_hours (hour_body env cfg ctx) hours built s = (r, s') /\
    tempdirs s' = tempdirs s /\ clock_reads s' = clock_reads s /\ logged_more s s' /\
    (forall p : Path,
       (forall h, In h hours -> p <> (day_dir ctx, out_name_of (camera ctx) h)) ->
       artifacts s' !! p = artifacts s !! p) /\
    (enc_calls s <= enc_calls s' <= enc_calls s + length hours)%nat /\
    (forall n, r = Ok n -> (built <= n <= built + length hours)%nat).
Proof.
  induction hours as [|hour rest IH]; intros built s.
  - exists (Ok built), s. split; [reflexivity |]. repeat split; auto; simpl; try lia.
    + apply logged_more_refl.
    + inversion H. lia.
    + inversion H. lia.
  - destruct (hour_body_effects env cfg ctx hour built s)
      as (r1 & s1 & Heq1 & T1 & C1 & L1 & A1 & E1 & N1).
    destruct r1 as [n1 | e].
    + destruct (IH n1 s1) as (r & s' & Heq & T & C & L & A & E & N).
      exists r, s'. split; [simpl; unfold bind; rewrite Heq1; exact Heq |].
      split; [congruence |]. split; [congruence |].
      split; [eapply logged_more_trans; eassumption |].
      split.
      * intros p Hp. rewrite A by (intros h Hh; apply Hp; now right).
        apply A1. apply Hp. now left.
      * specialize (N1 n1 eq_refl). simpl length. split; [lia |].
        intros n Hn. specialize (N n Hn). lia.
    + exists (Raise e), s1. split; [simpl; unfold bind; now rewrite Heq1 |].
      split; [exact T1 |]. split; [exact C1 |]. split; [exact L1 |].
      split; [intros p Hp; apply A1; apply Hp; now left |].
      simpl length. split; [lia | discriminate].
Qed.

Lemma current_hour_range (day : Z) (cam : string) (now_ : datetime) :
  0 <= current_hour (day_ctx day cam now_) <= 23.
Proof.
  cbn [current_hour day_ctx].
  destruct (date_of (yyyymmdd_to_date day) =? date_of now_); [| lia].
  apply hour_of_bounds.
Qed.

Lemma range0_length (n : Z) : 0 <= n -> Z.of_nat (length (range0 n)) = n.
Proof. intros Hn. unfold range0. rewrite length_seqZ. lia. Qed.

Lemma build_for_camera_day_effects (env : Env) (cfg : Config) (day : Z) (cam : string)
    (s : State) :
  exists r s',
    build_for_camera_day env cfg day cam s = (r, s') /\
    tempdirs s' = tempdirs s /\ logged_more s s' /\
    (forall p : Path,
       (forall h, 0 <= h <= current_hour (day_ctx day cam (clock env (clock_reads s))) ->
                  p <> ((day, cam), out_name_of cam h)) ->
       artifacts s' !! p = artifacts s !! p) /\
    (enc_calls s <= enc_calls s' <= enc_calls s + 24)%nat /\
    (forall n, r = Ok n -> (n <= 24)%nat).
Proof.
  unfold build_for_camera_day.
  destruct (dir_exists env (day, cam)); cbn [negb].
  - unfold bind at 1. unfold datetime_now.
    set (now_ := clock env (clock_reads s)).
    pose proof (current_hour_range day cam now_) as Hc.
    pose proof (range0_length (current_hour (day_ctx day cam now_) + 1) ltac:(lia)) as Hlen.
    destruct (for_hours_effects env cfg (day_ctx day cam now_)
                (range0 (current_hour (day_ctx day cam now_) + 1)) 0%nat
                (set_clock_reads S s)) as (r & s' & Heq & T & _ & L & A & E & N).
    exists r, s'. split; [exact Heq |]. split; [exact T |]. split; [exact L |].
    split; [| split].
    + intros p Hp. rewrite A; [reflexivity |].
      intros h Hh. apply list_elem_of_In, elem_of_seqZ in Hh. apply Hp. lia.
    + cbn [enc_calls set_clock_reads] in E. lia.
    + intros n Hn. specialize (N n Hn). lia.
  - unfold bind.
    destruct (eprint_only_logged (LogMissingCameraDir (day, cam)) s)
      as (s' & -> & (A & T & E & _ & L) & _).
    exists (Ok 0%nat), s'. split; [reflexivity |]. split; [exact T |]. split; [exact L |].
    split; [intros p _; now rewrite A |]. split; [lia |].
    intros n Hn. inversion Hn. lia.
Qed.

(** One camera-day run writes no file other than the artifacts of its own
    hours, from hour 0 to the current hour (23 on a past day): the artifacts
    of other days, of other cameras and of hours still to come are left as
    they are, whether the run returns or raises. *)
Theorem camera_day_writes_only_its_hours (env : Env) (cfg : Config) (day : Z)
    (cam : string) (s : State) :
  (forall p : Path,
     (forall h, 0 <= h <= current_hour (day_ctx day cam (clock env (clock_reads s))) ->
                p <> ((day, cam), out_name_of cam h)) ->
     artifacts (snd (build_for_camera_day env cfg day cam s)) !! p = artifacts s !! p) /\
  (forall day' cam' h',
     0 <= h' <= 23 ->
     day' <> day \/ cam' <> cam \/
     current_hour (day_ctx day cam (clock env (clock_reads s))) < h' ->
     artifacts (snd (build_for_camera_day env cfg day cam s))
       !! (((day', cam'), out_name_of cam' h') : Path)
     = artifacts s !! (((day', cam'), out_name_of cam' h') : Path)).
Proof.
  destruct (build_for_camera_day_effects env cfg day cam s)
    as (r & s' & Heq & _ & _ & A & _).
  rewrite Heq. cbn [snd]. split; [exact A |].
  intros day' cam' h' Hh' Hother. apply A. intros h Hh Hp.
  pose proof (current_hour_range day cam (clock env (clock_reads s))) as Hc.
  inversion Hp as [[Hd Hcam Hname]]. subst day' cam'.
  apply out_name_of_eq_hour in Hname; [| lia | lia].
  destruct Hother as [Hd | [Hcam | Hlate]]; [congruence | congruence | lia].
Qed.

Lemma camera_day_writes_only_its_hours_witness :
  artifacts
    (snd (build_for_camera_day current_hour_env (sample_cfg 1) 100 "driveway" stale_state))
    !! ((driveway 100, out_name_of "driveway" 5) : Path)
  = artifacts stale_state !! ((driveway 100, out_name_of "driveway" 5) : Path).
Proof.
  apply (proj2 (camera_day_writes_only_its_hours current_hour_env (sample_cfg 1) 100
                  "driveway" stale_state) 100 "driveway" 5).
  - lia.
  - right. right. vm_compute. reflexivity.
Defined.

(** At 03:30 the run rebuilds hour 3 over the stale artifact and stops: hours
    0 to 2 have no frames and hours 4 to 23 are not processed. *)
Example build_for_camera_day_current_hour :
  let '(r, s') :=
    build_for_camera_day current_hour_env (sample_cfg 1) 100 "driveway" stale_state in
  r = Ok 1%nat /\ enc_calls s' = 1%nat /\
  artifacts s' !! (driveway 100, "driveway-0300.mp4") = Some (video (at_time 100 3 30 1)) /\
  stderr s' = [LogOk (driveway 100, "driveway-0300.mp4") 1].
Proof. vm_compute. repeat split; reflexivity. Qed.



Lemma for_cameras_effects (env : Env) (cfg : Config) (day : Z) (cams : list string) :
  forall (total : nat) (s : State),
  exists r s',
    for_cameras env cfg day cams total s = (r, s') /\
    tempdirs s' = tempdirs s /\ logged_more s s' /\
    (enc_calls s <= enc_calls s' <= enc_calls s + 24 * length cams)%nat.
Proof.
  induction cams as [|cam rest IH]; intros total s.
  - exists (Ok total), s. split; [reflexivity |]. split; [reflexivity |].
    split; [apply logged_more_refl | simpl; lia].
  - destruct (eprint_only_logged (LogCamera cam day) s)
      as (s1 & Heq1 & (_ & T1 & E1 & _ & L1) & _).
    destruct (build_for_camera_day_effects env cfg day cam s1)
      as (r2 & s2 & Heq2 & T2 & L2 & _ & E2 & _).
    destruct r2 as [n | e].
    + destruct (IH (total + n)%nat s2) as (r & s' & Heq & T & L & E).
      exists r, s'. split; [simpl; unfold bind; rewrite Heq1, Heq2; exact Heq |].
      split; [congruence |].
      split; [eapply logged_more_trans; [exact L1 |];
              eapply logged_more_trans; eassumption |].
      simpl length. lia.
    + exists (Raise e), s2. split; [simpl; unfold bind; now rewrite Heq1, Heq2 |].
      split; [congruence |].
      split; [eapply logged_more_trans; eassumption |].
      simpl length. lia.
Qed.

Lemma main_effects (env : Env) (ns : Namespace) (s : State) :
  exists r s',
    main env ns s = (r, s') /\
    tempdirs s' = tempdirs s /\ logged_more s s' /\
    (enc_calls s <= enc_calls s' <= enc_calls s + 24 * length (selected_cameras ns))%nat.
Proof.
  unfold main.
  destruct (selected_cameras ns) as [|cam cams] eqn:Hsel.
  - destruct (eprint_only_logged LogNoCameraSelected s)
      as (s' & Heq & (_ & T & E & _ & L) & _).
    exists (Ok 2), s'. split; [unfold bind; now rewrite Heq |].
    split; [exact T |]. split; [exact L | lia].
  - destruct (archive_root_exists env); cbn [negb].
    + cbn [cfg_day cameras].
      destruct (match ns_day ns with Some d => Some d | None => pick_latest_day env end)
        as [day|].
      * unfold require_ffmpeg. destruct (ffmpeg_in_path env) as [ffmpeg|].
        -- unfold bind at 1. unfold ret at 1. unfold bind at 1.
           set (cfg := {| cfg_day := ns_day ns; cameras := cam :: cams;
                          encoding := ns_encoding ns; min_frames := ns_min_frames ns;
                          verbose := ns_verbose ns |}).
           destruct (for_cameras_effects env cfg day (cam :: cams) 0%nat s)
             as (r & s1 & Heq & T & L & E).
           rewrite Heq. destruct r as [total | e].
           ++ destruct (eprint_only_logged (LogDone total) s1)
                as (s' & Heq' & (_ & T' & E' & _ & L') & _).
              exists (Ok 0), s'. split; [unfold bind; now rewrite Heq' |].
              split; [congruence |].
              split; [eapply logged_more_trans; eassumption | lia].
           ++ exists (Raise e), s1. auto.
        -- eexists _, s. split; [reflexivity |]. split; [reflexivity |].
           split; [apply logged_more_refl | lia].
      * destruct (eprint_only_logged LogNoDayDirs s)
          as (s' & Heq & (_ & T & E & _ & L) & _).
        exists (Ok 1), s'. split; [unfold bind; now rewrite Heq |].
        split; [exact T |]. split; [exact L | lia].
    + destruct (eprint_only_logged LogArchiveRootNotFound s)
        as (s' & Heq & (_ & T & E & _ & L) & _).
      exists (Ok 2), s'. split; [unfold bind; now rewrite Heq |].
      split; [exact T |]. split; [exact L | lia].
Qed.

(** Whatever main returns or raises, every temporary work area it created is
    gone when it ends, standard error has only grown, and the encoder was
    started at most 24 times for each selected camera. *)
Theorem main_cleans_up (env : Env) (ns : Namespace) (s : State) :
  tempdirs (snd (main env ns s)) = tempdirs s /\
  logged_more s (snd (main env ns s)) /\
  (enc_calls s <= enc_calls (snd (main env ns s))
     <= enc_calls s + 24 * length (selected_cameras ns))%nat.
Proof.
  destruct (main_effects env ns s) as (r & s' & Heq & T & L & E).
  rewrite Heq. cbn [snd]. auto.
Qed.

(** ** Configuration errors *)

(** main checks its configuration in a fixed order and builds nothing when a
    check fails: no camera selected gives exit status 2, then a missing
    archive root gives 2, then no day to build gives 1, then a missing ffmpeg
    raises SystemExit; in each case no artifact is written, the encoder is not
    run and the clock is not read. Conversely exit status 0 is returned only
    when all four checks passed. *)
Theorem main_configuration_errors (env : Env) (ns : Namespace) (s : State) :
  (selected_cameras ns = [] ->
   exists s', main env ns s = (Ok 2, s') /\ only_logged s s') /\
  (selected_cameras ns <> [] -> archive_root_exists env = false ->
   exists s', main env ns s = (Ok 2, s') /\ only_logged s s') /\
  (selected_cameras ns <> [] -> archive_root_exists env = true ->
   resolved_day env ns = None ->
   exists s', main env ns s = (Ok 1, s') /\ only_logged s s') /\
  (selected_cameras ns <> [] -> archive_root_exists env = true ->
   resolved_day env ns <> None -> ffmpeg_in_path env = None ->
   exists msg, main env ns s = (Raise (SystemExit msg), s)) /\
  (fst (main env ns s) = Ok 0 ->
   selected_cameras ns <> [] /\ archive_root_exists env = true /\
   resolved_day env ns <> None /\ ffmpeg_in_path env <> None).
Proof.
  unfold main, resolved_day.
  destruct (selected_cameras ns) as [|cam cams] eqn:Hsel.
  - assert (H2 : exists s', (eprint LogNoCameraSelected ;; ret 2) s = (Ok 2, s') /\
                            only_logged s s').
    { unfold bind.
      destruct (eprint_only_logged LogNoCameraSelected s) as (s' & -> & Ho & _). eauto. }
    destruct H2 as (s' & Heq & Ho). rewrite Heq. cbn [fst].
    repeat split; try congruence; try discriminate; eauto.
  - destruct (archive_root_exists env); cbn [negb cfg_day cameras].
    + destruct (match ns_day ns with Some d => Some d | None => pick_latest_day env end)
        as [day|].
      * unfold require_ffmpeg. destruct (ffmpeg_in_path env) as [ffmpeg|].
        -- repeat split; try congruence; try discriminate.
        -- repeat split; try congruence; try discriminate.
           intros _ _ _ _. eexists. reflexivity.
      * assert (H1 : exists s', (eprint LogNoDayDirs ;; ret 1) s = (Ok 1, s') /\
                                only_logged s s').
        { unfold bind.
          destruct (eprint_only_logged LogNoDayDirs s) as (s' & -> & Ho & _). eauto. }
        destruct H1 as (s' & Heq & Ho). rewrite Heq. cbn [fst].
        repeat split; try congruence; try discriminate; eauto.
    + assert (H2 : exists s', (eprint LogArchiveRootNotFound ;; ret 2) s = (Ok 2, s') /\
                              only_logged s s').
      { unfold bind.
        destruct (eprint_only_logged LogArchiveRootNotFound s) as (s' & -> & Ho & _). eauto. }
      destruct H2 as (s' & Heq & Ho). rewrite Heq. cbn [fst].
      repeat split; try congruence; try discriminate; eauto.
Qed.

Lemma main_configuration_errors_witness :
  exists s',
    main mixed_env
      {| ns_all := false; ns_camera := [false; false; false; false; false; false];
         ns_day := Some 100; ns_encoding := sample_encoding; ns_min_frames := 30;
         ns_verbose := true |} stale_state = (Ok 2, s') /\
    only_logged stale_state s'.
Proof.
  apply (proj1 (main_configuration_errors mixed_env _ stale_state)). reflexivity.
Defined.

(** ** What the count counts *)

Lemma counted_lines_snoc (s : State) (l : LogLine) :
  counted_lines (set_stderr (fun e => e ++ [l]) s) =
  (counted_lines s + if is_counted l then 1 else 0)%nat.
Proof.
  unfold counted_lines. cbn [stderr set_stderr].
  rewrite List.filter_app, length_app. simpl. now destruct (is_counted l).
Qed.

Lemma counted_lines_same (f : State -> State) (s : State) :
  stderr (f s) = stderr s -> counted_lines (f s) = counted_lines s.
Proof. unfold counted_lines. now intros ->. Qed.

(** One iteration that returns adds to the count exactly the counted lines
    it printed. *)
Lemma hour_body_count (env : Env) (cfg : Config) (ctx : DayCtx) (hour : Z) (built : nat)
    (s : State) (n : nat) (s' : State) :
  hour_body env cfg ctx hour built s = (Ok n, s') ->
  (counted_lines s' + built = counted_lines s + n)%nat.
Proof.
  unfold hour_body, lift, should_skip_past_hour, build_hour_mp4, try_except_Exception,
    with_TemporaryDirectory, write_concat_list, run_ffmpeg_concat, copy2_tmp_mp4,
    read_manifest, store_tmp_mp4, eprint_if, bind, eprint, ret.
  destruct (select_frames env ctx hour) as [[|f fs]|e]; [| | discriminate].
  - destruct (verbose cfg); intros H; inversion H; subst;
      rewrite ?counted_lines_snoc; simpl; lia.
  - destruct (is_current_hour ctx hour); cbn [negb].
    + destruct (verbose cfg);
        destruct (Z.of_nat (length (f :: fs)) <? min_frames cfg);
        cbn -[Z.of_nat length];
        try (destruct (encoder env _ _ _ _) as [rc out err|]; cbn -[Z.of_nat length];
             [ destruct out; destruct (rc =? 0); cbn -[Z.of_nat length] | ]);
        intros H; inversion H; subst;
        unfold counted_lines; cbn [stderr set_stderr set_tempdirs set_enc_calls
                                     set_artifacts];
        rewrite ?List.filter_app, ?length_app; simpl; lia.
    + destruct (artifacts s !! _) as [out_file|].
      * destruct (newest_mtime (f :: fs)) as [src|].
        -- destruct (st_mtime out_file >=? src).
           ++ destruct (verbose cfg); intros H; inversion H; subst;
                rewrite ?counted_lines_snoc; simpl; lia.
           ++ destruct (verbose cfg);
                destruct (Z.of_nat (length (f :: fs)) <? min_frames cfg);
                cbn -[Z.of_nat length];
                try (destruct (encoder env _ _ _ _) as [rc out err|];
                     cbn -[Z.of_nat length];
                     [ destruct out; destruct (rc =? 0); cbn -[Z.of_nat length] | ]);
                intros H; inversion H; subst;
                unfold counted_lines; cbn [stderr set_stderr set_tempdirs set_enc_calls
                                             set_artifacts];
                rewrite ?List.filter_app, ?length_app; simpl; lia.
        -- intros H; inversion H; subst. lia.
      * destruct (verbose cfg);
          destruct (Z.of_nat (length (f :: fs)) <? min_frames cfg);
          cbn -[Z.of_nat length];
          try (destruct (encoder env _ _ _ _) as [rc out err|];
               cbn -[Z.of_nat length];
               [ destruct out; destruct (rc =? 0); cbn -[Z.of_nat length] | ]);
          intros H; inversion H; subst;
          unfold counted_lines; cbn [stderr set_stderr set_tempdirs set_enc_calls
                                       set_artifacts];
          rewrite ?List.filter_app, ?length_app; simpl; lia.
Qed.

Lemma for_hours_count (env : Env) (cfg : Config) (ctx : DayCtx) (hours : list Z) :
  forall built s n s',
    for_hours (hour_body env cfg ctx) hours built s = (Ok n, s') ->
    (counted_lines s' + built = counted_lines s + n)%nat.
Proof.
  induction hours as [|hour rest IH]; intros built s n s' H.
  - inversion H; subst. lia.
  - simpl in H. unfold bind in H.
    destruct (hour_body env cfg ctx hour built s) as [[n1 | e] s1] eqn:H1; [| discriminate].
    apply hour_body_count in H1. apply IH in H. lia.
Qed.

Lemma build_for_camera_day_count (env : Env) (cfg : Config) (day : Z) (cam : string)
    (s : State) (n : nat) (s' : State) :
  build_for_camera_day env cfg day cam s = (Ok n, s') ->
  counted_lines s' = (counted_lines s + n)%nat.
Proof.
  unfold build_for_camera_day.
  destruct (dir_exists env (day, cam)); cbn [negb].
  - unfold bind at 1. unfold datetime_now. intros H.
    apply for_hours_count in H.
    rewrite (counted_lines_same (set_clock_reads S)) in H by reflexivity. lia.
  - unfold bind, eprint, ret. intros H. inversion H; subst.
    rewrite counted_lines_snoc. simpl. lia.
Qed.

Lemma for_cameras_count (env : Env) (cfg : Config) (day : Z) (cams : list string) :
  forall total s total' s',
    for_cameras env cfg day cams total s = (Ok total', s') ->
    (counted_lines s' + total = counted_lines s + total')%nat.
Proof.
  induction cams as [|cam rest IH]; intros total s total' s' H.
  - inversion H; subst. lia.
  - simpl in H. unfold bind at 1 in H. unfold eprint at 1 in H. unfold bind at 1 in H.
    destruct (build_for_camera_day env cfg day cam _) as [[n | e] s2] eqn:H2;
      [| discriminate].
    apply build_for_camera_day_count in H2. apply IH in H.
    rewrite counted_lines_snoc in H2. simpl in H2. lia.
Qed.

(** The number a camera-day run returns, and the number main prints in its
    summary, is the number of "OK" lines plus the number of "only n frames"
    lines printed during the run: every hour that wrote an artifact is
    counted, and so is every hour that build_hour_mp4 skipped for having too
    few frames; hours without frames, hours skipped as up to date and hours
    whose build raised are not. *)
Theorem count_is_ok_lines_plus_few_frames_lines (env : Env) (cfg : Config)
    (ns : Namespace) (day : Z) (cam : string) (s : State) :
  (forall n,
     fst (build_for_camera_day env cfg day cam s) = Ok n ->
     counted_lines (snd (build_for_camera_day env cfg day cam s))
       = (counted_lines s + n)%nat) /\
  (fst (main env ns s) = Ok 0 ->
   exists total,
     last (stderr (snd (main env ns s))) = Some (LogDone total) /\
     counted_lines (snd (main env ns s)) = (counted_lines s + total)%nat).
Proof.
  split.
  - intros n Hn.
    destruct (build_for_camera_day env cfg day cam s) as [r s'] eqn:H.
    cbn [fst snd] in *. subst r. now apply build_for_camera_day_count in H.
  - destruct (main env ns s) as [r s'] eqn:H. cbn [fst snd]. intros ->.
    unfold main in H.
    destruct (selected_cameras ns) as [|c cams];
      [unfold bind, eprint, ret in H; inversion H |].
    destruct (archive_root_exists env); cbn [negb cfg_day cameras] in H;
      [| unfold bind, eprint, ret in H; inversion H].
    destruct (match ns_day ns with Some d => Some d | None => pick_latest_day env end)
      as [d|]; [| unfold bind, eprint, ret in H; inversion H].
    unfold require_ffmpeg in H.
    destruct (ffmpeg_in_path env); [| unfold bind, raise in H; discriminate].
    unfold bind at 1 in H. unfold ret at 1 in H. unfold bind at 1 in H.
    destruct (for_cameras env _ d (c :: cams) 0%nat s) as [[total | e] s1] eqn:Hc;
      [| discriminate].
    apply for_cameras_count in Hc.
    unfold bind, eprint, ret in H. inversion H; subst s'.
    exists total. split.
    + cbn [stderr set_stderr]. apply last_snoc.
    + rewrite counted_lines_snoc. simpl. lia.
Qed.

Lemma count_is_ok_lines_plus_few_frames_lines_witness :
  counted_lines
    (snd (build_for_camera_day flaky_env (sample_cfg 2) 100 "driveway" empty_state))
    = (counted_lines empty_state + 2)%nat /\
  exists total,
    last (stderr (snd (main flaky_env (sample_ns 3) empty_state))) = Some (LogDone total) /\
    counted_lines (snd (main flaky_env (sample_ns 3) empty_state))
      = (counted_lines empty_state + total)%nat.
Proof.
  destruct (count_is_ok_lines_plus_few_frames_lines flaky_env (sample_cfg 2)
              (sample_ns 3) 100 "driveway" empty_state) as [Hday Hmain].
  split.
  - apply Hday. vm_compute. reflexivity.
  - apply Hmain. vm_compute. reflexivity.
Defined.

(** ** Rebuilding a stale hour *)




(** ** Camera selection *)

Lemma selected_flags_sublist (flags : list bool) : forall m : list (string * string),
  flat_map (fun '(flag, (_, cam)) => if (flag : bool) then [cam] else []) (combine flags m)
    `sublist_of` map snd m.
Proof.
  induction flags as [|flag flags IH]; intros [|[key cam] m]; simpl;
    try apply sublist_nil_l.
  destruct flag; simpl.
  - apply sublist_skip, IH.
  - apply sublist_cons, IH.
Qed.

Lemma selected_flags_In (flags : list bool) : forall (m : list (string * string)) cam,
  In cam (flat_map (fun '(flag, (_, c)) => if (flag : bool) then [c] else [])
            (combine flags m)) <->
  exists i key, flags !! i = Some true /\ m !! i = Some (key, cam).
Proof.
  induction flags as [|flag flags IH]; intros [|[key c] m] cam; simpl.
  - split; [intros [] | intros (i & k & H & _); destruct i; discriminate].
  - split; [intros [] | intros (i & k & H & _); destruct i; discriminate].
  - split; [intros [] | intros (i & k & _ & H); destruct i; discriminate].
  - rewrite in_app_iff, IH. split.
    + intros [Hhere | (i & k & Hf & Hm)].
      * destruct flag; [| destruct Hhere]. destruct Hhere as [<- | []].
        exists 0%nat, key. auto.
      * exists (S i), k. auto.
    + intros (i & k & Hf & Hm). destruct i as [|i]; simpl in Hf, Hm.
      * left. inversion Hf; subst. inversion Hm; subst. now left.
      * right. eauto.
Qed.

(** Camera selection: --all selects the six cameras in the order of the
    camera map; otherwise a camera is selected exactly when its own flag is
    set, the selected names keep the order of the map, and no camera is ever
    selected twice, so main builds each camera at most once. *)
Theorem selected_cameras_spec (ns : Namespace) :
  (ns_all ns = true ->
   selected_cameras ns =
   ["backwindows"; "basementWoodRm"; "driveway"; "frontDoorInside"; "garagedoors";
    "livingRoom"]) /\
  (ns_all ns = false ->
   forall cam,
     In cam (selected_cameras ns) <->
     exists i key, ns_camera ns !! i = Some true /\ CAMERA_MAP !! i = Some (key, cam)) /\
  selected_cameras ns `sublist_of` map snd CAMERA_MAP /\
  NoDup (selected_cameras ns).
Proof.
  assert (Hsub : selected_cameras ns `sublist_of` map snd CAMERA_MAP).
  { unfold selected_cameras. destruct (ns_all ns); [reflexivity |].
    apply selected_flags_sublist. }
  split; [| split; [| split]].
  - intros Hall. unfold selected_cameras. now rewrite Hall.
  - intros Hall cam. unfold selected_cameras. rewrite Hall.
    apply selected_flags_In.
  - exact Hsub.
  - apply (sublist_NoDup _ (map snd CAMERA_MAP)); [| exact Hsub].
    apply NoDup_ListNoDup. unfold CAMERA_MAP. simpl.
    repeat (constructor; [simpl; intuition discriminate |]). constructor.
Qed.

Lemma selected_cameras_spec_witness :
  In "driveway" (selected_cameras (sample_ns 30)) <->
  exists i key,
    ns_camera (sample_ns 30) !! i = Some true /\ CAMERA_MAP !! i = Some (key, "driveway").
Proof.
  apply (proj1 (proj2 (selected_cameras_spec (sample_ns 30)))). reflexivity.
Defined.

(** ** Day directories *)

Lemma name_le_trans (a b c : string) : name_le a b -> name_le b c -> name_le a c.
Proof.
  unfold name_le. intros Hab Hbc.
  apply Is_true_true. apply Is_true_true in Hab. apply Is_true_true in Hbc.
  exact (@transitivity _ String.le _ a b c Hab Hbc).
Qed.

Lemma insert_name_perm (name : string) (l : list string) :
  Permutation (name :: l) (insert_name name l).
Proof.
  induction l as [|other l IH]; simpl; [reflexivity |].
  destruct (String.leb name other); [reflexivity |].
  rewrite perm_swap. now constructor.
Qed.

Lemma sort_names_perm (l : list string) : Permutation l (sort_names l).
Proof.
  induction l as [|name l IH]; simpl; [reflexivity |].
  rewrite <- insert_name_perm. now constructor.
Qed.

Lemma insert_name_sorted (name : string) (l : list string) :
  StronglySorted name_le l -> StronglySorted name_le (insert_name name l).
Proof.
  induction l as [|other l IH]; intros Hs; simpl.
  - repeat constructor.
  - inversion Hs as [|? ? Hl Ho]; subst.
    destruct (String.leb name other) eqn:Hle.
    + constructor; [assumption |]. constructor; [exact Hle |].
      eapply List.Forall_impl; [| exact Ho]. intros a Ha.
      eapply name_le_trans; [exact Hle | exact Ha].
    + constructor; [now apply IH |].
      apply (proj2 (List.Forall_forall _ _)). intros a Ha.
      apply (Permutation_in _ (Permutation_sym (insert_name_perm name l))) in Ha.
      destruct Ha as [<- | Ha].
      * destruct (String.leb_total name other) as [H | H]; [congruence | exact H].
      * now apply (proj1 (List.Forall_forall _ _) Ho).
Qed.

Lemma sort_names_sorted (l : list string) : StronglySorted name_le (sort_names l).
Proof.
  induction l as [|name l IH]; simpl; [constructor | now apply insert_name_sorted].
Qed.

Lemma name_sorted_last (l : list string) (a latest : string) :
  StronglySorted name_le l -> last l = Some latest -> In a l -> name_le a latest.
Proof.
  induction l as [|x l IH]; intros Hs Hlast Hin; [inversion Hin |].
  inversion Hs as [|? ? Hl Hx]; subst.
  destruct l as [|y l].
  - simpl in Hlast. inversion Hlast; subst. destruct Hin as [<- | []].
    unfold name_le. destruct (String.leb_total latest latest); assumption.
  - change (last (x :: y :: l)) with (last (y :: l)) in Hlast.
    destruct Hin as [<- | Hin]; [| now apply IH].
    assert (Hg : In latest (y :: l)).
    { apply list_elem_of_In. apply last_Some_elem_of. exact Hlast. }
    apply (proj1 (List.Forall_forall _ _) Hx) in Hg. exact Hg.
Qed.

Lemma scan_day_dirs_In (entries : list (string * bool)) : forall days name,
  In name (scan_day_dirs entries days) <->
  In name days \/
  (In (name, true) entries /\ String.length name = 8%nat /\ isdigit name = true).
Proof.
  induction entries as [|[n d] rest IH]; intros days name; simpl.
  - tauto.
  - destruct d.
    + destruct (Nat.eqb_spec (String.length n) 8) as [Hlen | Hlen];
        destruct (isdigit n) eqn:Hdig; simpl; rewrite IH; try rewrite in_app_iff; simpl;
        split; intros H;
        repeat match goal with
               | H : _ \/ _ |- _ => destruct H
               | H : _ /\ _ |- _ => destruct H
               | H : (_, _) = (_, _) |- _ => inversion H; subst; clear H
               | H : False |- _ => destruct H
               end; subst; auto; try congruence; tauto.
    + rewrite IH. split; intros H;
        repeat match goal with
               | H : _ \/ _ |- _ => destruct H
               | H : _ /\ _ |- _ => destruct H
               | H : (_, _) = (_, _) |- _ => inversion H; subst; clear H
               end; auto; try discriminate; tauto.
Qed.

(** On an archive root whose names are all in ASCII, list_day_dirs returns
    exactly the names of the directories that are eight characters long and
    all digits, in ascending order, and nothing for a root that does not
    exist; pick_latest_day is None exactly when there is no such directory
    and otherwise the greatest of those names. *)
Theorem list_day_dirs_spec (entries : list (string * bool)) :
  ascii_names entries = true ->
  list_day_dirs None = [] /\
  (forall name,
     In name (list_day_dirs (Some entries)) <->
     In (name, true) entries /\ String.length name = 8%nat /\ isdigit name = true) /\
  StronglySorted name_le (list_day_dirs (Some entries)) /\
  (pick_latest_day_name (Some entries) = None <-> list_day_dirs (Some entries) = []) /\
  (forall latest,
     pick_latest_day_name (Some entries) = Some latest ->
     In latest (list_day_dirs (Some entries)) /\
     forall name, In name (list_day_dirs (Some entries)) -> name_le name latest).
Proof.
  intros _. split; [reflexivity |]. split; [| split; [| split]].
  - intros name. unfold list_day_dirs. split.
    + intros Hin.
      apply (Permutation_in _ (Permutation_sym (sort_names_perm _))) in Hin.
      apply scan_day_dirs_In in Hin as [[] | H]. exact H.
    + intros H. apply (Permutation_in _ (sort_names_perm _)).
      apply scan_day_dirs_In. now right.
  - apply sort_names_sorted.
  - unfold pick_latest_day_name. apply last_None.
  - intros latest Hlast. unfold pick_latest_day_name in Hlast. split.
    + apply list_elem_of_In. now apply last_Some_elem_of.
    + intros name Hin. eapply name_sorted_last; [apply sort_names_sorted | exact Hlast | exact Hin].
Qed.

Lemma list_day_dirs_spec_witness :
  In "20240102" (list_day_dirs (Some sample_root)) /\
  forall name, In name (list_day_dirs (Some sample_root)) -> name_le name "20240102".
Proof.
  apply (proj2 (proj2 (proj2 (proj2 (list_day_dirs_spec sample_root eq_refl))))).
  vm_compute. reflexivity.
Defined.

Example list_day_dirs_sample :
  list_day_dirs (Some sample_root) = ["20231231"; "20240101"; "20240102"].
Proof. vm_compute. reflexivity. Qed.

(** ** The hour in progress grows at its end *)

Lemma insert_by_mtime_head (f : Frame) (l : list Frame) :
  Forall (mtime_le f) l -> insert_by_mtime f l = f :: l.
Proof.
  intros Hall. destruct l as [|g l]; [reflexivity |].
  apply Forall_cons in Hall as [Hg _]. unfold mtime_le in Hg. simpl.
  destruct (Z.leb_spec (snd f) (snd g)); [reflexivity | lia].
Qed.

Lemma filter_Forall (P : Frame -> bool) (Q : Frame -> Prop) (l : list Frame) :
  Forall Q l -> Forall Q (List.filter P l).
Proof.
  induction 1 as [|a l Ha Hl IH]; simpl; [constructor |].
  destruct (P a); [constructor |]; assumption.
Qed.

Lemma insert_by_mtime_filter_sorted (P : Frame -> bool) (f : Frame) (l : list Frame) :
  mtime_sorted l ->
  List.filter P (insert_by_mtime f l) =
  if P f then insert_by_mtime f (List.filter P l) else List.filter P l.
Proof.
  unfold mtime_sorted. induction 1 as [|g l Hl IH Hg]; simpl.
  - now destruct (P f).
  - destruct (Z.leb_spec (snd f) (snd g)) as [Hle | Hgt]; simpl.
    + destruct (P f) eqn:Hf; [| reflexivity].
      destruct (P g) eqn:Hpg; simpl.
      * destruct (Z.leb_spec (snd f) (snd g)); [reflexivity | lia].
      * symmetry. apply insert_by_mtime_head. apply filter_Forall.
        eapply Forall_impl; [exact Hg |]. unfold mtime_le. intros a Ha. lia.
    + rewrite IH. destruct (P f) eqn:Hf, (P g) eqn:Hpg; simpl; try reflexivity.
      destruct (Z.leb_spec (snd f) (snd g)); [lia | reflexivity].
Qed.

Lemma sort_by_mtime_filter_commute (P : Frame -> bool) (l : list Frame) :
  sort_by_mtime (List.filter P l) = List.filter P (sort_by_mtime l).
Proof.
  induction l as [|f l IH]; [reflexivity |].
  simpl. rewrite insert_by_mtime_filter_sorted by apply sort_by_mtime_sorted.
  destruct (P f); simpl; now rewrite IH.
Qed.

Lemma frame_of_entry_shorter (d : Dir) (start_ts e1 e2 : Z) (entry : DirEntry) :
  e1 <= e2 ->
  frame_of_entry d start_ts e1 entry =
  match frame_of_entry d start_ts e2 entry with
  | Some f => if snd f <? e1 then Some f else None
  | None => None
  end.
Proof.
  intros He. unfold frame_of_entry.
  destruct (e_is_file entry && endswith_any (e_name entry) JPEG_EXTS); [| reflexivity].
  destruct (e_stat entry) as [mt|]; [| reflexivity].
  destruct (Z.leb_spec start_ts mt), (Z.ltb_spec mt e1), (Z.ltb_spec mt e2); simpl;
    try lia; try reflexivity.
  - destruct (Z.ltb_spec mt e1); [reflexivity | lia].
  - destruct (Z.ltb_spec mt e1); [lia | reflexivity].
Qed.

Lemma frames_in_window_shorter (d : Dir) (start_ts e1 e2 : Z) (entries : list DirEntry) :
  e1 <= e2 ->
  frames_in_window d start_ts e1 entries =
  List.filter (fun f => snd f <? e1) (frames_in_window d start_ts e2 entries).
Proof.
  intros He. unfold frames_in_window.
  induction entries as [|entry rest IH]; [reflexivity |].
  cbn [omap list_omap]. rewrite (frame_of_entry_shorter d start_ts e1 e2 entry He).
  destruct (frame_of_entry d start_ts e2 entry) as [f|]; [| exact IH].
  simpl. destruct (snd f <? e1); [now rewrite IH | exact IH].
Qed.

Lemma sorted_threshold_split (t : Z) (l : list Frame) :
  mtime_sorted l ->
  l = List.filter (fun f => snd f <? t) l ++ List.filter (fun f => negb (snd f <? t)) l.
Proof.
  unfold mtime_sorted. induction 1 as [|a l Hl IH Ha]; [reflexivity |].
  simpl. destruct (Z.ltb_spec (snd a) t) as [Hlt | Hge]; simpl.
  - now rewrite <- IH.
  - assert (Hnone : List.filter (fun f => snd f <? t) l = []).
    { clear IH Hl. induction Ha as [|b l Hb Hrest IHa]; [reflexivity |].
      simpl. unfold mtime_le in Hb. destruct (Z.ltb_spec (snd b) t); [lia | exact IHa]. }
    rewrite Hnone in *. simpl in *. now rewrite <- IH.
Qed.

(** With the same directory listing, the selection over a window that ends
    earlier is a prefix of the selection over a window that ends later, and
    what follows the prefix is not older than the earlier end: as the clock
    advances, the frame list of the hour in progress is only extended at its
    end. *)
Theorem shorter_window_is_a_prefix (env : Env) (d : Dir) (start_dt e1 e2 : datetime)
    (entries : list DirEntry) :
  e1 <= e2 -> dir_exists env d = true -> scandir env d = Ok entries ->
  exists frames1 rest,
    list_jpgs_in_range env d start_dt e1 = Ok frames1 /\
    list_jpgs_in_range env d start_dt e2 = Ok (frames1 ++ rest) /\
    forall g, In g rest -> e1 <= snd g < e2.
Proof.
  intros He Hex Hscan.
  pose proof (list_jpgs_in_range_listed env d start_dt e1 entries Hex Hscan) as H1.
  pose proof (list_jpgs_in_range_listed env d start_dt e2 entries Hex Hscan) as H2.
  set (r2 := sort_by_mtime (frames_in_window d start_dt e2 entries)) in *.
  exists (List.filter (fun f => snd f <? e1) r2),
         (List.filter (fun f => negb (snd f <? e1)) r2).
  split; [| split].
  - rewrite H1. f_equal. subst r2.
    rewrite (frames_in_window_shorter d start_dt e1 e2 entries He).
    apply sort_by_mtime_filter_commute.
  - rewrite H2. f_equal. apply sorted_threshold_split. apply sort_by_mtime_sorted.
  - intros g Hg. apply List.filter_In in Hg as [Hin Hge].
    apply list_jpgs_in_range_sound in H2 as [_ Hr]. apply Hr in Hin.
    destruct (Z.ltb_spec (snd g) e1); [discriminate | lia].
Qed.

Lemma shorter_window_is_a_prefix_witness :
  exists frames1 rest,
    list_jpgs_in_range mixed_env (driveway 100) (at_time 100 3 0 0) (at_time 100 3 30 0)
      = Ok frames1 /\
    list_jpgs_in_range mixed_env (driveway 100) (at_time 100 3 0 0) (at_time 100 4 5 0)
      = Ok (frames1 ++ rest) /\
    forall g, In g rest -> at_time 100 3 30 0 <= snd g < at_time 100 4 5 0.
Proof.
  apply (shorter_window_is_a_prefix mixed_env (driveway 100) (at_time 100 3 0 0)
           (at_time 100 3 30 0) (at_time 100 4 5 0) mixed_entries).
  - vm_compute. discriminate.
  - reflexivity.
  - reflexivity.
Defined.

(** For the hour in progress the artifact store is not consulted: with any
    other set of existing artifacts the iteration returns the same result,
    runs the encoder the same number of times and prints the same lines. *)
Theorem current_hour_ignores_artifacts (env : Env) (cfg : Config) (ctx : DayCtx)
    (hour : Z) (built : nat) (s : State) (other : gmap Path File) :
  is_current_hour ctx hour = true ->
  fst (hour_body env cfg ctx hour built (set_artifacts (fun _ => other) s))
    = fst (hour_body env cfg ctx hour built s) /\
  enc_calls (snd (hour_body env cfg ctx hour built (set_artifacts (fun _ => other) s)))
    = enc_calls (snd (hour_body env cfg ctx hour built s)) /\
  stderr (snd (hour_body env cfg ctx hour built (set_artifacts (fun _ => other) s)))
    = stderr (snd (hour_body env cfg ctx hour built s)).
Proof.
  intros Hcur.
  unfold hour_body, lift, build_hour_mp4, try_except_Exception,
    with_TemporaryDirectory, write_concat_list, run_ffmpeg_concat, copy2_tmp_mp4,
    read_manifest, store_tmp_mp4, eprint_if, bind, eprint, ret.
  rewrite Hcur. cbn [negb].
  destruct (select_frames env ctx hour) as [[|f fs]|e]; [| | auto].
  - destruct (verbose cfg); auto.
  - destruct (verbose cfg);
      destruct (Z.of_nat (length (f :: fs)) <? min_frames cfg);
      cbn -[Z.of_nat length]; auto;
      (destruct (encoder env _ _ _ _) as [rc out err|]; cbn -[Z.of_nat length];
       [ destruct out; destruct (rc =? 0); cbn -[Z.of_nat length] | ]); auto.
Qed.

Lemma current_hour_ignores_artifacts_witness :
  fst (hour_body current_hour_env (sample_cfg 1)
         (day_ctx 100 "driveway" (at_time 100 3 30 0)) 3 0%nat
         (set_artifacts (fun _ => artifacts built_state) empty_state))
    = fst (hour_body current_hour_env (sample_cfg 1)
             (day_ctx 100 "driveway" (at_time 100 3 30 0)) 3 0%nat empty_state) /\
  enc_calls
    (snd (hour_body current_hour_env (sample_cfg 1)
            (day_ctx 100 "driveway" (at_time 100 3 30 0)) 3 0%nat
            (set_artifacts (fun _ => artifacts built_state) empty_state)))
    = enc_calls
        (snd (hour_body current_hour_env (sample_cfg 1)
                (day_ctx 100 "driveway" (at_time 100 3 30 0)) 3 0%nat empty_state)) /\
  stderr
    (snd (hour_body current_hour_env (sample_cfg 1)
            (day_ctx 100 "driveway" (at_time 100 3 30 0)) 3 0%nat
            (set_artifacts (fun _ => artifacts built_state) empty_state)))
    = stderr
        (snd (hour_body current_hour_env (sample_cfg 1)
                (day_ctx 100 "driveway" (at_time 100 3 30 0)) 3 0%nat empty_state)).
Proof.
  apply (current_hour_ignores_artifacts current_hour_env (sample_cfg 1)
           (day_ctx 100 "driveway" (at_time 100 3 30 0)) 3 0%nat empty_state
           (artifacts built_state)).
  reflexivity.
Defined.

(** * Failure isolation on the archive by name *)















(** On the flaky archive the unreadable frame is skipped, the failed hour
    is logged, and the run goes on to the later hour and to its summary. *)
Example main_named_flaky :
  let '(r, s') := main_named flaky_archive (sample_ns 2) None empty_state in
  r = Ok 0 /\
  stderr s' =
    [LogCameraNamed "driveway" "20240102";
     LogErrorBuilding "driveway-0300.mp4" (RuntimeError (-9) "killed");
     LogOk (jan2, "driveway", "driveway-0500.mp4") 2;
     LogDone 1] /\
  enc_calls s' = 2%nat /\
  artifacts s' !! ((jan2, "driveway", "driveway-0300.mp4") : Path) = None /\
  artifacts s' !! ((jan2, "driveway", "driveway-0500.mp4") : Path)
    = Some (video (at_time (jan2 + 100) 0 0 2)).
Proof. vm_compute. repeat split; reflexivity. Qed.

(** What the provisos keep out. The configuration phase succeeds on each of
    these archives, and main raises before its summary: the camera-day
    directory cannot be listed; the latest eight-digit directory is no
    calendar date and strptime raises ValueError; a symbolic link that
    points to itself makes the type check of the selector raise OSError. *)
Example main_named_escapes :
  resolved_day_named unreadable_archive None = Some "20240102" /\
  fst (main_named unreadable_archive (sample_ns 2) None empty_state)
    = Raise PermissionError /\
  stderr (snd (main_named unreadable_archive (sample_ns 2) None empty_state))
    = [LogCameraNamed "driveway" "20240102"] /\
  resolved_day_named misnamed_archive None = Some "20241345" /\
  a_dir_exists misnamed_archive "20241345" "driveway" = true /\
  fst (main_named misnamed_archive (sample_ns 2) None empty_state) = Raise ValueError /\
  stderr (snd (main_named misnamed_archive (sample_ns 2) None empty_state))
    = [LogCameraNamed "driveway" "20241345"] /\
  resolved_day_named looping_archive None = Some "20240102" /\
  fst (main_named looping_archive (sample_ns 2) None empty_state) = Raise (OSError ELOOP) /\
  stderr (snd (main_named looping_archive (sample_ns 2) None empty_state))
    = [LogCameraNamed "driveway" "20240102"].
Proof. vm_compute. repeat split; reflexivity. Qed.

(** At the two ends of the range of datetime the day itself parses, and the
    arithmetic on it raises OverflowError: the day before 0001-01-01, and
    the end of the last hour window of 9999-12-31. *)
Example build_for_camera_day_named_range_ends :
  a_strptime range_ends_archive "00010101" = Ok MIN_ORDINAL /\
  fst (build_for_camera_day_named range_ends_archive (sample_cfg 2) "00010101" "driveway"
         empty_state) = Raise OverflowError /\
  a_strptime range_ends_archive "99991231" = Ok MAX_ORDINAL /\
  fst (build_for_camera_day_named range_ends_archive (sample_cfg 2) "99991231" "driveway"
         empty_state) = Raise OverflowError /\
  (exists s1,
     hour_body_named range_ends_archive (sample_cfg 2) "99991231" MAX_ORDINAL
       (day_ctx MAX_ORDINAL "driveway" (at_time jan2 0 0 0)) 22 0%nat empty_state
       = (Ok 0%nat, s1)).
Proof.
  split; [reflexivity |]. split; [vm_compute; reflexivity |].
  split; [reflexivity |]. split; [vm_compute; reflexivity |].
  eexists. vm_compute. reflexivity.
Qed.
